(** * bricknil: hub lifecycle orchestration and peripheral attachment

    A shallow embedding of [bricknil/bricknil.py] (the [attach] class
    decorator and the [initialize] / [finalize] / [run] / [start] entry
    points) together with the properties its specification states.

    Python code is embedded in a small monad that threads a world state,
    an outcome (normal return or raised exception) and the trace of the
    calls the embedded code issues.  Everything that lives in other modules
    of the package (the [Hub] class and its methods, [BLEventQ], asyncio,
    [warnings]) is an opaque state transformer supplied by a type class. *)

From Stdlib Require Import List String Bool Arith ZArith Lia.
From stdpp Require Import base list strings gmap.
Import ListNotations.

Set Implicit Arguments.
Set Default Proof Using "Type".

(* ================================================================== *)
(** * Python outcomes and the trace monad                             *)
(* ================================================================== *)

Module Py.

(** Exceptions.  [TypeError] and [NameError] are raised by the interpreter
    itself; [Exception cls] stands for any exception raised inside a
    collaborator (ConnectionError, RuntimeError, ...). *)
Inductive exn : Type :=
| TypeError (msg : string)
| NameError (name : string)
| Exception (cls : string).

Inductive outcome (A : Type) : Type :=
| Returned (a : A)
| Raised (e : exn).
Arguments Returned {A} a.
Arguments Raised {A} e.

(** A collaborator operation: it may change the world and return or raise. *)
Definition op (W A : Type) : Type := W -> outcome A * W.

(** Embedded code: world in; outcome, world and emitted events out. *)
Definition M (W E A : Type) : Type := W -> outcome A * W * list E.

Section Monad.
Context {W E : Type}.

Definition ret {A} (a : A) : M W E A :=
  fun w => (Returned a, w, []).

Definition raise {A} (e : exn) : M W E A :=
  fun w => (Raised e, w, []).

Definition bind {A B} (m : M W E A) (k : A -> M W E B) : M W E B :=
  fun w =>
    match m w with
    | (Returned a, w1, t1) =>
        match k a w1 with (r, w2, t2) => (r, w2, t1 ++ t2) end
    | (Raised e, w1, t1) => (Raised e, w1, t1)
    end.

(** Issue a call to a collaborator; the call is recorded when it is made,
    whatever its outcome. *)
Definition call {A} (ev : E) (f : op W A) : M W E A :=
  fun w => match f w with (r, w1) => (r, w1, [ev]) end.

Definition emit (ev : E) : M W E unit :=
  fun w => (Returned tt, w, [ev]).

(** Evaluate an expression that only reads the world. *)
Definition read {A} (f : W -> A) : M W E A :=
  fun w => (Returned (f w), w, []).

(** [try: body finally: cleanup].  The cleanup block always runs; when it
    raises, its exception replaces the outcome of the body. *)
Definition try_finally {A} (body : M W E A) (cleanup : M W E unit) : M W E A :=
  fun w =>
    match body w with
    | (r, w1, t1) =>
        match cleanup w1 with
        | (Returned _, w2, t2) => (r, w2, t1 ++ t2)
        | (Raised e, w2, t2) => (Raised e, w2, t1 ++ t2)
        end
    end.

(** [for x in l: body x], over the list object obtained when the loop
    starts. *)
Fixpoint for_each {A} (l : list A) (body : A -> M W E unit) : M W E unit :=
  match l with
  | [] => ret tt
  | x :: xs => bind (body x) (fun _ => for_each xs body)
  end.

Definition result {A} (m : M W E A) (w : W) : outcome A := fst (fst (m w)).
Definition final {A} (m : M W E A) (w : W) : W := snd (fst (m w)).
Definition trace {A} (m : M W E A) (w : W) : list E := snd (m w).

End Monad.

Declare Scope py_scope.
Delimit Scope py_scope with py.
Notation "x <- c ;; k" := (bind c (fun x => k))
  (at level 100, c at next level, right associativity) : py_scope.
Notation "c ;; k" := (bind c (fun _ => k))
  (at level 100, right associativity) : py_scope.

(** The values a caller may hand to [run] and [start].  A plain callable
    (a function, a lambda, a class, a [functools.partial]) runs its body
    when it is called and returns either something that can be awaited,
    given by what awaiting it does, or something that cannot. *)
Inductive pyobj (W : Type) : Type :=
| PyNone
| PyAsyncFunction (body : op W unit)   (* [async def f(): ...], no parameter *)
| PyCoroutine (body : op W unit)       (* the coroutine object [f()] *)
| PyFunction (body : op W (option (op W unit)))
                                       (* a plain callable, no parameter *)
| PyObject.                            (* any other, non-callable, value *)
Arguments PyNone {W}.
Arguments PyObject {W}.

(** A nested [async def] with its parameter list. *)
Record async_def (W E : Type) : Type := AsyncDef {
  params : list string;
  body : M W E unit
}.

Section Calls.
Context {W E : Type}.

(** [f()] for a caller-supplied object [f].  Calling an async function
    yields its coroutine without running any of it; calling a plain callable
    runs its body there and then; nothing else can be called.  The value is
    [Some c] for an awaitable, [c] being what awaiting it does, and [None]
    for a value that cannot be awaited. *)
Definition call_object (f : pyobj W) : M W E (option (op W unit)) :=
  match f with
  | PyAsyncFunction b => ret (Some b)
  | PyFunction b => fun w => match b w with (r, w1) => (r, w1, []) end
  | PyCoroutine _ => raise (TypeError "'coroutine' object is not callable")
  | PyNone => raise (TypeError "'NoneType' object is not callable")
  | PyObject => raise (TypeError "object is not callable")
  end.

(** [await x], recorded as [ev] when [x] is awaited. *)
Definition await_value (ev : E) (x : option (op W unit)) : M W E unit :=
  match x with
  | Some c => call ev c
  | None => raise (TypeError "object can't be used in 'await' expression")
  end.

(** [f(args)] for a nested [async def]: the arguments are bound to the
    parameters when the call is made, before any of the body runs. *)
Definition call_async_def (f : async_def W E) (args : list (pyobj W))
  : M W E (M W E unit) :=
  if length args =? length (params f)
  then ret (body f)
  else raise (TypeError "wrong number of positional arguments").

End Calls.

End Py.

Import Py.
Local Open Scope py_scope.

(* ================================================================== *)
(** * The orchestrator: [initialize], [finalize], [run], [start]      *)
(* ================================================================== *)

(** Methods of a [Hub] that the orchestrator calls. *)
Inductive hub_method : Type :=
| Connect | Initialize | Finalize | Disconnect | MessageInfo.

(** The two module-level coroutines that [run] and [start] await. *)
Inductive coroutine_fn : Type :=
| FnInitialize | FnFinalize.

(** What the orchestrator is observed to do, in program order. *)
Inductive event (hub : Type) : Type :=
| EvHub (h : hub) (m : hub_method)       (* [await h.m()] / [h.m(...)] *)
| EvQueryPortInfo (h : hub) (flag : bool)  (* [h.query_port_info] read as [flag] *)
| EvDisconnectAll                        (* [await BLEventQ.instance.disconnect_all()] *)
| EvAwait (f : coroutine_fn)             (* [await initialize()] / [await finalize()] *)
| EvProgram                              (* the coroutine of [program()] is awaited *)
| EvSetup                                (* the coroutine of [setup()] is awaited *)
| EvWarn (message category : string)     (* [warnings.warn(message, category)] *)
| EvGetEventLoop                         (* [get_event_loop()] *)
| EvRunUntilComplete                     (* [loop.run_until_complete(...)] *)
| EvSpawn (h : hub)                      (* [spawn(h.run())] *)
| EvAwaitTask (h : hub).                 (* [await task] for the task of [h] *)
Arguments EvDisconnectAll {hub}.
Arguments EvAwait {hub} f.
Arguments EvProgram {hub}.
Arguments EvSetup {hub}.
Arguments EvWarn {hub} message category.
Arguments EvGetEventLoop {hub}.
Arguments EvRunUntilComplete {hub}.

(** Everything [bricknil.py] imports: the [Hub] class of [hub.py] with its
    registry [Hub.hubs], the [BLEventQ] singleton of [ble_queue.py], asyncio
    and [warnings].  None of these is defined in [bricknil.py]; each is a
    state transformer on the world. *)
Class Collaborators (W hub : Type) : Type := {
  Hub_hubs : W -> list hub;
  hub_connect : hub -> op W unit;
  hub_initialize : hub -> op W unit;
  hub_finalize : hub -> op W unit;
  hub_disconnect : hub -> op W unit;
  hub_query_port_info : hub -> W -> bool;
  (** [hub.message_info(pprint.pformat(hub.port_info))]: the argument is a
      function of the world, so the whole statement is one transformer. *)
  hub_message_info : hub -> op W unit;
  (** [spawn(hub.run())] schedules the hub's coroutine as a task; awaiting
      the task lets the event loop run until that task is done. *)
  spawn_hub_run : hub -> op W unit;
  await_task : hub -> op W unit;
  disconnect_all : op W unit;
  get_event_loop : op W unit;
  warnings_warn : string -> string -> op W unit;
  (** Names bound in the [builtins] module. *)
  builtins : list string
}.

(** Names bound at the top level of [bricknil.py] by its imports and
    definitions, with the names every module has. *)
Definition module_globals : list string :=
  ["__name__"; "__doc__"; "__package__"; "__loader__"; "__spec__";
   "__file__"; "__cached__"; "__builtins__";
   "logging"; "pprint"; "run"; "sleep"; "get_event_loop"; "spawn";
   "partial"; "wraps"; "uuid"; "Process"; "BLEventQ"; "PoweredUpHub";
   "BoostHub"; "Hub"; "attach"; "initialize"; "finalize"; "start"].

Section Orchestrator.
Context {W hub : Type} `{C : Collaborators W hub}.

(** A name that is not local to the function: module globals, then
    builtins, else [NameError]. *)
Definition load_global (name : string) : M W (event hub) (pyobj W) :=
  if existsb (String.eqb name) (module_globals ++ builtins)
  then ret PyObject
  else raise (NameError name).

(** Body of the loop of [initialize]. *)
Definition connect_and_initialize (h : hub) : M W (event hub) unit :=
  call (EvHub h Connect) (hub_connect h) ;;
  call (EvHub h Initialize) (hub_initialize h).

Definition initialize : M W (event hub) unit :=
  hubs <- read Hub_hubs ;;
  for_each hubs connect_and_initialize.

(** Body of the first loop of [finalize]. *)
Definition finalize_and_disconnect (h : hub) : M W (event hub) unit :=
  call (EvHub h Finalize) (hub_finalize h) ;;
  call (EvHub h Disconnect) (hub_disconnect h).

(** Body of the second loop of [finalize]. *)
Definition report_port_info (h : hub) : M W (event hub) unit :=
  flag <- read (hub_query_port_info h) ;;
  emit (EvQueryPortInfo h flag) ;;
  if flag then call (EvHub h MessageInfo) (hub_message_info h)
  else ret tt.

(** First loop of [finalize]. *)
Definition finalize_hubs : M W (event hub) unit :=
  hubs <- read Hub_hubs ;;
  for_each hubs finalize_and_disconnect.

(** Second loop of [finalize]. *)
Definition finalize_port_info : M W (event hub) unit :=
  hubs <- read Hub_hubs ;;
  for_each hubs report_port_info.

Definition finalize : M W (event hub) unit :=
  finalize_hubs ;;
  finalize_port_info ;;
  call EvDisconnectAll disconnect_all.

(** Body of the [main] nested in [run]. *)
Definition run_main (program : pyobj W) : M W (event hub) unit :=
  emit (EvAwait FnInitialize) ;; initialize ;;
  try_finally
    (coro <- call_object program ;; await_value EvProgram coro)
    (emit (EvAwait FnFinalize) ;; finalize).

Definition run (program : pyobj W) : M W (event hub) unit :=
  let main := AsyncDef [] (run_main program) in
  call EvGetEventLoop get_event_loop ;;
  coro <- call_async_def main [program] ;;
  emit EvRunUntilComplete ;; coro.

(** Body of the [main] nested in [start]. *)
Definition start_main (setup : pyobj W) : M W (event hub) unit :=
  (coro <- call_object setup ;; await_value EvSetup coro) ;;
  emit (EvAwait FnInitialize) ;; initialize ;;
  try_finally
    (hubs <- read Hub_hubs ;;
     for_each hubs (fun h => call (EvSpawn h) (spawn_hub_run h)) ;;
     for_each hubs (fun h => call (EvAwaitTask h) (await_task h)))
    (emit (EvAwait FnFinalize) ;; finalize).

Definition start (setup : pyobj W) : M W (event hub) unit :=
  call (EvWarn "start() is deprecated, use run() instread" "DeprecationWarning")
       (warnings_warn "start() is deprecated, use run() instread"
                      "DeprecationWarning") ;;
  let main := AsyncDef [] (start_main setup) in
  call EvGetEventLoop get_event_loop ;;
  program <- load_global "program" ;;
  coro <- call_async_def main [program] ;;
  emit EvRunUntilComplete ;; coro.

(** ** Vocabulary of the statements

    The traces the specification prescribes, and what it means for the
    hubs of a list to go through a phase one after the other without a
    failure, in terms of the collaborators alone. *)

Definition startup_trace (hubs : list hub) : list (event hub) :=
  flat_map (fun h => [EvHub h Connect; EvHub h Initialize]) hubs.

Definition teardown_trace (hubs : list hub) : list (event hub) :=
  flat_map (fun h => [EvHub h Finalize; EvHub h Disconnect]) hubs.

(** One flag per hub: the flag is read, and the diagnostics are emitted
    only when it is set. *)
Fixpoint port_info_trace (hubs : list hub) (flags : list bool) : list (event hub) :=
  match hubs, flags with
  | h :: hubs', true :: flags' =>
      EvQueryPortInfo h true :: EvHub h MessageInfo :: port_info_trace hubs' flags'
  | h :: hubs', false :: flags' =>
      EvQueryPortInfo h false :: port_info_trace hubs' flags'
  | _, _ => []
  end.

Definition finalize_trace (hubs hubs' : list hub) (flags : list bool)
  : list (event hub) :=
  teardown_trace hubs ++ port_info_trace hubs' flags ++ [EvDisconnectAll].

(** Every hub of the list connects and initializes. *)
Inductive started : list hub -> W -> W -> Prop :=
| started_nil w : started [] w w
| started_cons h l w w1 w2 w3 :
    hub_connect h w = (Returned tt, w1) ->
    hub_initialize h w1 = (Returned tt, w2) ->
    started l w2 w3 ->
    started (h :: l) w w3.

(** Every hub of the list finalizes and disconnects. *)
Inductive stopped : list hub -> W -> W -> Prop :=
| stopped_nil w : stopped [] w w
| stopped_cons h l w w1 w2 w3 :
    hub_finalize h w = (Returned tt, w1) ->
    hub_disconnect h w1 = (Returned tt, w2) ->
    stopped l w2 w3 ->
    stopped (h :: l) w w3.

(** The diagnostics of every hub of the list that asks for them are
    emitted; [flags] are the flags found. *)
Inductive reported : list hub -> list bool -> W -> W -> Prop :=
| reported_nil w : reported [] [] w w
| reported_skip h l flags w w' :
    hub_query_port_info h w = false ->
    reported l flags w w' ->
    reported (h :: l) (false :: flags) w w'
| reported_info h l flags w w1 w' :
    hub_query_port_info h w = true ->
    hub_message_info h w = (Returned tt, w1) ->
    reported l flags w1 w' ->
    reported (h :: l) (true :: flags) w w'.

(** The events by which [run] and [start] enter [finalize]. *)
Definition is_await_finalize (e : event hub) : bool :=
  match e with EvAwait FnFinalize => true | _ => false end.

Definition is_disconnect_all (e : event hub) : bool :=
  match e with EvDisconnectAll => true | _ => false end.

(** The warning [start] emits. *)
Definition deprecation_warning : event hub :=
  EvWarn "start() is deprecated, use run() instread" "DeprecationWarning".

(** The events that belong to the body of a nested [main]. *)
Definition in_main (e : event hub) : bool :=
  match e with
  | EvWarn _ _ | EvGetEventLoop => false
  | _ => true
  end.

End Orchestrator.

(* ================================================================== *)
(** * A test bench for the orchestrator                               *)
(* ================================================================== *)

(** A concrete world in which the statements above can be run: hubs that
    can be unreachable or fail in their teardown hook, and the set of open
    transport connections. *)
Module Bench.

Record bench_hub : Type := BenchHub {
  hub_id : nat;
  reachable : bool;          (* [connect()] succeeds *)
  teardown_ok : bool;        (* [finalize()] succeeds *)
  query_port_info : bool
}.

Record bench_world : Type := BenchWorld {
  registry : list bench_hub;   (* [Hub.hubs] *)
  open_connections : list nat  (* ids of the hubs whose connection is open *)
}.

Definition set_open (w : bench_world) (l : list nat) : bench_world :=
  BenchWorld (registry w) l.

Definition bench_connect (h : bench_hub) : op bench_world unit :=
  fun w =>
    if reachable h
    then (Returned tt, set_open w (hub_id h :: open_connections w))
    else (Raised (Exception "ConnectionError"), w).

Definition bench_finalize (h : bench_hub) : op bench_world unit :=
  fun w =>
    if teardown_ok h then (Returned tt, w)
    else (Raised (Exception "RuntimeError"), w).

Definition bench_disconnect (h : bench_hub) : op bench_world unit :=
  fun w =>
    (Returned tt,
     set_open w (List.filter (fun i => negb (i =? hub_id h)) (open_connections w))).

Definition bench_disconnect_all : op bench_world unit :=
  fun w => (Returned tt, set_open w []).

Definition nop {A : Type} : A -> op bench_world unit :=
  fun _ w => (Returned tt, w).

#[global] Instance bench : Collaborators bench_world bench_hub := {|
  Hub_hubs := registry;
  hub_connect := bench_connect;
  hub_initialize := nop;
  hub_finalize := bench_finalize;
  hub_disconnect := bench_disconnect;
  hub_query_port_info := fun h _ => query_port_info h;
  hub_message_info := nop;
  spawn_hub_run := nop;
  await_task := nop;
  disconnect_all := bench_disconnect_all;
  get_event_loop := nop tt;
  warnings_warn := fun _ _ => nop tt;
  builtins := ["print"; "len"; "range"; "hasattr"; "getattr"]
|}.

Definition H1 : bench_hub := BenchHub 1 true true false.
Definition H2 : bench_hub := BenchHub 2 true true true.
(** A hub that cannot be reached. *)
Definition Hdown : bench_hub := BenchHub 4 false true false.
(** A hub whose teardown hook raises. *)
Definition Hbad : bench_hub := BenchHub 5 true false false.

Definition fresh (hubs : list bench_hub) : bench_world := BenchWorld hubs [].
Definition connected (hubs : list bench_hub) : bench_world :=
  BenchWorld hubs (map hub_id hubs).

(** A user program that does nothing, and one that fails. *)
Definition quiet_program : pyobj bench_world :=
  PyAsyncFunction (fun w => (Returned tt, w)).
Definition failing_program : pyobj bench_world :=
  PyAsyncFunction (fun w => (Raised (Exception "ValueError"), w)).

End Bench.

(* ================================================================== *)
(** * The [attach] class decorator                                    *)
(* ================================================================== *)

(** Argument values as they appear in decorator and constructor calls. *)
#[warnings="-register-all"]
Inductive pyval : Type :=
| VNone
| VInt (z : Z)
| VStr (s : string)
| VList (l : list pyval).

(** [**kwargs]: keyword to value, in the order written. *)
Definition kwargs : Type := list (string * pyval).

(** [*args, **kwargs] of a constructor call. *)
Record call_args : Type := CallArgs {
  positional : list pyval;
  keywords : kwargs
}.

(** A class is referred to by its [__name__]. *)
Definition class_ref : Type := string.

Inductive attach_event (hub peripheral : Type) : Type :=
| EvPrint (peripheral_type : class_ref)            (* [print(f'decorating with ...')] *)
| EvPeripheral (peripheral_type : class_ref) (kw : kwargs)
                                                   (* [peripheral_type( **kwargs )] *)
| EvConstruct (cls : class_ref) (args : call_args) (* the hub class itself is instantiated *)
| EvMessageDebug (o : hub) (msg : string)          (* [o.message_debug(msg)] *)
| EvAttachSensor (o : hub) (p : peripheral).       (* [o.attach_sensor(p)] *)
Arguments EvPrint {hub peripheral} peripheral_type.
Arguments EvPeripheral {hub peripheral} peripheral_type kw.
Arguments EvConstruct {hub peripheral} cls args.
Arguments EvMessageDebug {hub peripheral} o msg.
Arguments EvAttachSensor {hub peripheral} o p.

(** What the decorator uses and [bricknil.py] does not define: the
    constructors of the peripheral and hub classes, two methods of [Hub]
    and the level of the root logger. *)
Class HubClasses (W hub peripheral : Type) : Type := {
  peripheral_new : class_ref -> kwargs -> op W peripheral;
  hub_new : class_ref -> call_args -> op W hub;
  hub_message_debug : hub -> string -> op W unit;
  hub_attach_sensor : hub -> peripheral -> op W unit;
  logging_is_debug : W -> bool
}.

Section Attach.
Context {W hub peripheral : Type} `{HC : HubClasses W hub peripheral}.

(** An instance of [attach]. *)
Record attach : Type := Attach {
  peripheral_type : class_ref;
  attach_kwargs : kwargs
}.

(** Something that can stand where a hub class stands: the class, or the
    wrapper an earlier decorator returned. *)
Record constructor : Type := Constructor {
  ctor_name : string;     (* [__name__] *)
  ctor_call : call_args -> M W (attach_event hub peripheral) hub
}.

(** The decorated class itself. *)
Definition hub_class (cls : class_ref) : constructor :=
  Constructor cls (fun args => call (EvConstruct cls args) (hub_new cls args)).

(** [attach.__init__] *)
Definition attach_init (peripheral_type : class_ref) (kw : kwargs)
  : M W (attach_event hub peripheral) attach :=
  debug <- read logging_is_debug ;;
  (if debug : bool then emit (EvPrint peripheral_type) else ret tt) ;;
  ret (Attach peripheral_type kw).

(** The [wrapper_f] that [attach.__call__] defines. *)
Definition wrapper_f (self : attach) (cls : constructor) (args : call_args)
  : M W (attach_event hub peripheral) hub :=
  peripheral <- call (EvPeripheral (peripheral_type self) (attach_kwargs self))
                     (peripheral_new (peripheral_type self) (attach_kwargs self)) ;;
  o <- ctor_call cls args ;;
  let msg := ("Decorating class " ++ ctor_name cls ++ " with "
              ++ peripheral_type self)%string in
  call (EvMessageDebug o msg) (hub_message_debug o msg) ;;
  call (EvAttachSensor o peripheral) (hub_attach_sensor o peripheral) ;;
  ret o.

(** [attach.__call__]; [@wraps(cls)] gives the wrapper the name of [cls]. *)
Definition attach_call (self : attach) (cls : constructor) : constructor :=
  Constructor (ctor_name cls) (wrapper_f self cls).

(** A class statement under a stack of decorators, listed top to bottom:
    the topmost decorator is applied last. *)
Definition decorate (decorators : list attach) (cls : class_ref) : constructor :=
  fold_right attach_call (hub_class cls) decorators.

End Attach.
Arguments attach : clear implicits.
Arguments constructor : clear implicits.

(* ================================================================== *)
(** * A test bench for the decorator                                  *)
(* ================================================================== *)

Module Workbench.

(** Peripheral instances: name, port and capability list, as the
    decorator's keyword arguments give them. *)
Record peripheral : Type := Peripheral {
  per_type : class_ref;
  per_name : string;
  per_port : option Z;
  capabilities : list string
}.

(** Hub instances: their class and their instance attributes. *)
Record hub_object : Type := HubObject {
  hub_cls : class_ref;
  hub_args : call_args;
  attrs : gmap string peripheral
}.

(** The heap of hub instances (a hub reference is an index into it), the
    methods each hub class defines, and the logging level. *)
Record world : Type := World {
  heap : list hub_object;
  class_methods : class_ref -> list string;
  debug : bool
}.

Definition kw_lookup (k : string) (kw : kwargs) : option pyval :=
  match find (fun p => String.eqb (fst p) k) kw with
  | Some p => Some (snd p)
  | None => None
  end.

Definition kw_port (kw : kwargs) : option Z :=
  match kw_lookup "port" kw with
  | Some (VInt z) => Some z
  | _ => None
  end.

Fixpoint names_of (l : list pyval) : list string :=
  match l with
  | VStr s :: r => s :: names_of r
  | _ :: r => names_of r
  | [] => []
  end.

Definition kw_capabilities (kw : kwargs) : list string :=
  match kw_lookup "capabilities" kw with
  | Some (VList l) => names_of l
  | _ => []
  end.

(** Modelled from the spec: the constructor of a peripheral class
    ([sensor/*.py] is not among the sources).  A peripheral is identified by
    name, port and capability list; a missing name is a
    [ConfigurationError]. *)
Definition bench_peripheral_new (pt : class_ref) (kw : kwargs) : op world peripheral :=
  fun w =>
    match kw_lookup "name" kw with
    | Some (VStr n) =>
        (Returned (Peripheral pt n (kw_port kw) (kw_capabilities kw)), w)
    | _ => (Raised (Exception "ConfigurationError"), w)
    end.

(** The hub constructor allocates the instance with no peripheral yet. *)
Definition bench_hub_new (cls : class_ref) (args : call_args) : op world nat :=
  fun w =>
    (Returned (length (heap w)),
     World (heap w ++ [HubObject cls args ∅]) (class_methods w) (debug w)).

(** Modelled from the spec: [Hub.attach_sensor] ([hub.py] is not among the
    sources) registers the peripheral on the hub instance under an attribute
    matching the peripheral's name, and does nothing else. *)
Definition bench_attach_sensor (o : nat) (p : peripheral) : op world unit :=
  fun w =>
    (Returned tt,
     World (alter (fun h => HubObject (hub_cls h) (hub_args h)
                              (<[per_name p := p]> (attrs h))) o (heap w))
           (class_methods w) (debug w)).

#[global] Instance workbench : HubClasses world nat peripheral := {|
  peripheral_new := bench_peripheral_new;
  hub_new := bench_hub_new;
  hub_message_debug := fun _ _ w => (Returned tt, w);
  hub_attach_sensor := bench_attach_sensor;
  logging_is_debug := debug
|}.

(** A capability needs a callback when its name starts with "sense". *)
Definition is_sensing (capability : string) : bool :=
  String.prefix "sense" capability.

(** [hasattr(o, name)] on a hub instance: a method of its class or an
    instance attribute. *)
Definition hasattr (w : world) (o : nat) (name : string) : bool :=
  match heap w !! o with
  | Some h => existsb (String.eqb name) (class_methods w (hub_cls h))
              || bool_decide (is_Some (attrs h !! name))
  | None => false
  end.

Definition attribute (w : world) (o : nat) (name : string) : option peripheral :=
  match heap w !! o with
  | Some h => attrs h !! name
  | None => None
  end.

(** The model of [examples/42099_4x4_X-treme_Off_Roader.py]. *)
Definition front_drive : attach :=
  Attach "CPlusXLMotor" [("name", VStr "front_drive"); ("port", VInt 0)].
Definition rear_drive : attach :=
  Attach "CPlusXLMotor" [("name", VStr "rear_drive"); ("port", VInt 1)].
Definition vehicle_args : call_args :=
  CallArgs [VStr "4x4 X-treme Off Roader"] [].

(** A sensor with a sensing capability, and a hub class without any
    callback method. *)
Definition temp_sensor : attach :=
  Attach "SensorX" [("name", VStr "temp"); ("port", VInt 0);
                    ("capabilities", VList [VStr "sense_temp"])].
Definition PlainHub : constructor world nat peripheral :=
  decorate [temp_sensor] "PlainHub".


(** Before any hub exists; no hub class defines a callback. *)
Definition empty_world : world := World [] (fun _ => []) false.

End Workbench.

(* ================================================================== *)
(** * The command channel                                             *)
(* ================================================================== *)

Module CommandChannel.

(** How a pending handle is resolved. *)
Inductive resolution : Type :=
| Acknowledged
| TransportTimeout
| Disconnected.

(** A pending outbound message.  The handle given out at admission is the
    correlation token; [sender] is the hub the command comes from. *)
Record entry : Type := Entry {
  handle : nat;
  sender : nat;
  message : string
}.

(** Modelled from the spec: the CommandChannel ([ble_queue.py] is not among
    the sources).  One queue of enqueued entries, one consumer that is
    either idle or waiting for the response to the entry it wrote last, the
    writes the transport has seen, and the resolved handles.  [enqueued]
    records every entry in the order of admission. *)
Record channel : Type := Channel {
  queue : list entry;
  in_flight : option entry;
  written : list entry;
  enqueued : list entry;
  resolved : list (nat * resolution);
  next_handle : nat
}.






(** Modelled from the spec: [disconnect_all()] drains the queue and cancels
    every pending handle with [Disconnected]. *)
Definition disconnect_all (c : channel) : channel :=
  let pending := match in_flight c with Some e => [e] | None => [] end ++ queue c in
  Channel [] None (written c) (enqueued c)
          (resolved c ++ map (fun e => (handle e, Disconnected)) pending)
          (next_handle c).








(** The entries whose handle is still pending: the one in flight and the
    queued ones. *)
Definition pending (c : channel) : list entry :=
  match in_flight c with Some e => [e] | None => [] end ++ queue c.



End CommandChannel.

(* ================================================================== *)
(** * Vocabulary of the statements about the decorator                *)
(* ================================================================== *)

Section AttachVocabulary.
Context {hub peripheral : Type}.

(** The text [wrapper_f] hands to [message_debug]. *)
Definition debug_message (cls : class_ref) (d : attach) : string :=
  ("Decorating class " ++ cls ++ " with " ++ peripheral_type d)%string.



End AttachVocabulary.


(* ================================================================== *)
(** * Further vocabulary: the bodies of [main], failures, decoration   *)
(* ================================================================== *)

(** Every element of the list goes through a call that returns. *)
Inductive all_return {W A : Type} (f : A -> op W unit) : list A -> W -> W -> Prop :=
| all_return_nil w : all_return f [] w w
| all_return_cons x l w w1 w2 :
    f x w = (Returned tt, w1) ->
    all_return f l w1 w2 ->
    all_return f (x :: l) w w2.

(** The outcome of [try: ... finally: ...] from the outcomes of its two
    blocks: an exception of the cleanup block wins. *)
Definition after_cleanup {A : Type} (body : outcome A) (cleanup : outcome unit)
  : outcome A :=
  match cleanup with
  | Raised e => Raised e
  | Returned _ => body
  end.

Definition is_callable {W : Type} (f : pyobj W) : bool :=
  match f with
  | PyAsyncFunction _ | PyFunction _ => true
  | _ => false
  end.

(** A collaborator call that leaves no event of its own, such as the read
    of an attribute. *)
Definition silent {W E A : Type} (f : op W A) : M W E A :=
  fun w => match f w with (r, w1) => (r, w1, []) end.

Section ClassStatement.
Context {W hub peripheral : Type} `{HC : HubClasses W hub peripheral}.

(** The decorator expressions of a class statement are evaluated from top
    to bottom, each by [attach.__init__]. *)
Fixpoint eval_decorators (exprs : list (class_ref * kwargs))
  : M W (attach_event hub peripheral) (list attach) :=
  match exprs with
  | [] => ret []
  | (pt, kw) :: rest =>
      d <- attach_init pt kw ;;
      ds <- eval_decorators rest ;;
      ret (d :: ds)
  end.

(** A class statement under decorator expressions: the expressions are
    evaluated, then applied to the class from the bottom up. *)
Definition class_statement (exprs : list (class_ref * kwargs)) (cls : class_ref)
  : M W (attach_event hub peripheral) (constructor W hub peripheral) :=
  ds <- eval_decorators exprs ;;
  ret (decorate ds cls).

(** The instantiations of the peripherals of a list of decorators. *)
Definition peripheral_events (ds : list attach) : list (attach_event hub peripheral) :=
  map (fun d => EvPeripheral (peripheral_type d) (attach_kwargs d)) ds.

(** The peripheral of every decorator of the list is instantiated, in the
    order of the list. *)
Inductive created : list attach -> list peripheral -> W -> W -> Prop :=
| created_nil w : created [] [] w w
| created_cons d ds p ps w w1 w2 :
    peripheral_new (peripheral_type d) (attach_kwargs d) w = (Returned p, w1) ->
    created ds ps w1 w2 ->
    created (d :: ds) (p :: ps) w w2.


End ClassStatement.

(* ================================================================== *)
(** * The example [42099_4x4_X-treme_Off_Roader.py]                    *)
(* ================================================================== *)

Inductive drive_event (motor : Type) : Type :=
| EvSetSpeed (m : motor) (speed : Z)      (* [await m.set_speed(speed)] *)
| EvSleep (seconds : Z).                  (* [await sleep(seconds)] *)
Arguments EvSleep {motor} seconds.

(** What the example uses: the attributes of the hub instance, the
    [set_speed] of the motor class and [asyncio.sleep]. *)
Class Driving (W hub motor : Type) : Type := {
  hub_getattr : hub -> string -> op W motor;
  motor_set_speed : motor -> Z -> op W unit;
  asyncio_sleep : Z -> op W unit
}.

Section Example.
Context {W hub motor : Type} `{D : Driving W hub motor}.

(** [XtremeOffRoader.set_speed] *)
Definition set_speed (self : hub) (speed : Z) : M W (drive_event motor) unit :=
  front_drive <- silent (hub_getattr self "front_drive") ;;
  call (EvSetSpeed front_drive speed) (motor_set_speed front_drive speed) ;;
  rear_drive <- silent (hub_getattr self "rear_drive") ;;
  call (EvSetSpeed rear_drive speed) (motor_set_speed rear_drive speed).

(** [set_speed] went through: both motors were found on the vehicle, the
    front one first, and each took the command. *)
Definition commanded (self : hub) (speed : Z) (front rear : motor) (w w' : W)
  : Prop :=
  exists w1 w2 w3,
    hub_getattr self "front_drive" w = (Returned front, w1)
    /\ motor_set_speed front speed w1 = (Returned tt, w2)
    /\ hub_getattr self "rear_drive" w2 = (Returned rear, w3)
    /\ motor_set_speed rear speed w3 = (Returned tt, w').

(** [program], with the module-level [vehicle] it refers to. *)
Definition program (vehicle : hub) : M W (drive_event motor) unit :=
  set_speed vehicle 10 ;;
  call (EvSleep 3) (asyncio_sleep 3) ;;
  set_speed vehicle 0.

Definition is_stop {motor' : Type} (ev : drive_event motor') : bool :=
  match ev with
  | EvSetSpeed _ speed => (speed =? 0)%Z
  | EvSleep _ => false
  end.

End Example.

(* ================================================================== *)
(** * A second test bench: hubs that fail where they are told to       *)
(* ================================================================== *)

Module Lab.

Definition hub_method_eqb (a b : hub_method) : bool :=
  match a, b with
  | Connect, Connect | Initialize, Initialize | Finalize, Finalize
  | Disconnect, Disconnect | MessageInfo, MessageInfo => true
  | _, _ => false
  end.

Record lab_hub : Type := LabHub {
  lab_id : nat;
  failing : list hub_method;   (* the methods of this hub that raise *)
  wants_port_info : bool;
  task_fails : bool            (* the hub's [run()] task raises *)
}.

Record lab_world : Type := LabWorld {
  lab_registry : list lab_hub;
  lab_open : list nat
}.

Definition fails (h : lab_hub) (m : hub_method) : bool :=
  existsb (hub_method_eqb m) (failing h).

(** A method raises when the hub is told to fail in it, and otherwise has
    the given effect on the open connections. *)
Definition lab_method (m : hub_method) (effect : nat -> list nat -> list nat)
    (h : lab_hub) : op lab_world unit :=
  fun w =>
    if fails h m then (Raised (Exception "HubError"), w)
    else (Returned tt, LabWorld (lab_registry w) (effect (lab_id h) (lab_open w))).

Definition lab_task (h : lab_hub) : op lab_world unit :=
  fun w => if task_fails h then (Raised (Exception "TaskError"), w)
           else (Returned tt, w).

#[global] Instance lab : Collaborators lab_world lab_hub := {|
  Hub_hubs := lab_registry;
  hub_connect := lab_method Connect (fun i l => i :: l);
  hub_initialize := lab_method Initialize (fun _ l => l);
  hub_finalize := lab_method Finalize (fun _ l => l);
  hub_disconnect :=
    lab_method Disconnect (fun i l => List.filter (fun j => negb (j =? i)) l);
  hub_query_port_info := fun h _ => wants_port_info h;
  hub_message_info := lab_method MessageInfo (fun _ l => l);
  spawn_hub_run := fun _ w => (Returned tt, w);
  await_task := lab_task;
  disconnect_all := fun w => (Returned tt, LabWorld (lab_registry w) []);
  get_event_loop := fun w => (Returned tt, w);
  warnings_warn := fun _ _ w => (Returned tt, w);
  builtins := ["print"; "len"]
|}.

Definition good (i : nat) : lab_hub := LabHub i [] false false.
Definition bad (i : nat) (m : hub_method) : lab_hub := LabHub i [m] true false.
Definition crashing (i : nat) : lab_hub := LabHub i [] false true.

Definition lab_fresh (hubs : list lab_hub) : lab_world := LabWorld hubs [].
Definition lab_connected (hubs : list lab_hub) : lab_world :=
  LabWorld hubs (map lab_id hubs).

Definition ok_program : pyobj lab_world :=
  PyAsyncFunction (fun w => (Returned tt, w)).
Definition broken_program : pyobj lab_world :=
  PyAsyncFunction (fun w => (Raised (Exception "ValueError"), w)).

(** A vehicle with the motors named in [parts]; the motors in [stalled]
    raise when commanded; [speeds] records every command. *)
Record garage : Type := Garage {
  parts : list string;
  stalled : list string;
  can_sleep : bool;
  speeds : list (string * Z)
}.

Definition garage_getattr (_ : unit) (name : string) : op garage string :=
  fun w =>
    if existsb (String.eqb name) (parts w) then (Returned name, w)
    else (Raised (Exception "AttributeError"), w).

Definition garage_set_speed (m : string) (speed : Z) : op garage unit :=
  fun w =>
    if existsb (String.eqb m) (stalled w) then (Raised (Exception "MotorError"), w)
    else (Returned tt,
          Garage (parts w) (stalled w) (can_sleep w) (speeds w ++ [(m, speed)])).

Definition garage_sleep (_ : Z) : op garage unit :=
  fun w => if can_sleep w then (Returned tt, w)
           else (Raised (Exception "CancelledError"), w).

#[global] Instance garage_driving : Driving garage unit string := {|
  hub_getattr := garage_getattr;
  motor_set_speed := garage_set_speed;
  asyncio_sleep := garage_sleep
|}.

Definition interrupted : garage :=
  Garage ["front_drive"; "rear_drive"] [] false [].

(** A shop in which every call of the decorator can fail: a peripheral
    needs a name, the class [Broken] raises in its constructor, and a hub
    refuses a second peripheral of a name it already has.  The world is the
    list of the hubs built, each with the names attached to it. *)
Definition shop : Type := list (class_ref * list string).

Definition shop_peripheral_new (pt : class_ref) (kw : kwargs) : op shop string :=
  fun w =>
    match Workbench.kw_lookup "name" kw with
    | Some (VStr n) => (Returned n, w)
    | _ => (Raised (Exception "ConfigurationError"), w)
    end.

Definition shop_hub_new (cls : class_ref) (args : call_args) : op shop nat :=
  fun w =>
    if String.eqb cls "Broken" then (Raised (Exception "RuntimeError"), w)
    else (Returned (length w), w ++ [(cls, [])]).

Definition shop_attach_sensor (o : nat) (p : string) : op shop unit :=
  fun w =>
    match w !! o with
    | Some (cls, names) =>
        if existsb (String.eqb p) names
        then (Raised (Exception "AssertionError"), w)
        else (Returned tt, <[o := (cls, names ++ [p])]> w)
    | None => (Raised (Exception "AttributeError"), w)
    end.

#[global] Instance shop_classes : HubClasses shop nat string := {|
  peripheral_new := shop_peripheral_new;
  hub_new := shop_hub_new;
  hub_message_debug := fun _ _ w => (Returned tt, w);
  hub_attach_sensor := shop_attach_sensor;
  logging_is_debug := fun _ => true
|}.

Definition motor (name : string) : attach :=
  Attach "CPlusXLMotor" [("name", VStr name)].
Definition nameless : attach := Attach "CPlusXLMotor" [("port", VInt 2)].
Definition no_args : call_args := CallArgs [] [].

End Lab.

(* ================================================================== *)
(** * Equations of the monad                                          *)
(* ================================================================== *)

Section MonadFacts.
Context {W E : Type}.

Lemma run_eta {A} (m : M W E A) (w : W) :
  m w = (result m w, final m w, trace m w).
Proof. unfold result, final, trace. destruct (m w) as [[r w1] t]. reflexivity. Qed.

Lemma bind_returned {A B} (m : M W E A) (k : A -> M W E B) w a w1 t1 :
  m w = (Returned a, w1, t1) ->
  bind m k w = (result (k a) w1, final (k a) w1, t1 ++ trace (k a) w1).
Proof.
  intros Hm. unfold bind. rewrite Hm. rewrite (run_eta (k a) w1). reflexivity.
Qed.

Lemma bind_raised {A B} (m : M W E A) (k : A -> M W E B) w e w1 t1 :
  m w = (Raised e, w1, t1) ->
  bind m k w = (Raised e, w1, t1).
Proof. intros Hm. unfold bind. rewrite Hm. reflexivity. Qed.

Lemma bind_returned_eq {A B} (m : M W E A) (k : A -> M W E B) w a w1 t1 r w2 t2 :
  m w = (Returned a, w1, t1) ->
  k a w1 = (r, w2, t2) ->
  bind m k w = (r, w2, t1 ++ t2).
Proof. intros Hm Hk. unfold bind. rewrite Hm, Hk. reflexivity. Qed.

Lemma call_eq {A} (ev : E) (f : op W A) w r w1 :
  f w = (r, w1) -> call ev f w = (r, w1, [ev]).
Proof. intros Hf. unfold call. rewrite Hf. reflexivity. Qed.

Lemma for_each_app {A} (l1 l2 : list A) (body : A -> M W E unit) w :
  for_each (l1 ++ l2) body w
  = bind (for_each l1 body) (fun _ => for_each l2 body) w.
Proof.
  revert w. induction l1 as [|x l1 IH]; intros w; simpl.
  - unfold bind, ret. destruct (for_each l2 body w) as [[r w2] t2]. reflexivity.
  - unfold bind. destruct (body x w) as [[[a|e] w1] t1]; [|reflexivity].
    rewrite IH. unfold bind.
    destruct (for_each l1 body w1) as [[[a1|e1] w2] t2]; [|reflexivity].
    destruct (for_each l2 body w2) as [[r w3] t3]. by rewrite app_assoc.
Qed.

(** A loop stops at the first iteration that raises. *)
Lemma for_each_abort {A} (l1 l2 : list A) x (body : A -> M W E unit)
    w w1 t1 e w2 t2 :
  for_each l1 body w = (Returned tt, w1, t1) ->
  body x w1 = (Raised e, w2, t2) ->
  for_each (l1 ++ x :: l2) body w = (Raised e, w2, t1 ++ t2).
Proof.
  intros H1 Hx. rewrite for_each_app.
  eapply bind_returned_eq; [exact H1|]. simpl.
  by apply bind_raised.
Qed.

(** When every iteration emits a prefix of what is prescribed for it, and
    all of it when it returns, so does the loop. *)
Lemma for_each_prefix {A} (spec : A -> list E) (body : A -> M W E unit) l :
  (forall x w, trace (body x) w `prefix_of` spec x) ->
  (forall x w a, result (body x) w = Returned a -> trace (body x) w = spec x) ->
  forall w,
    trace (for_each l body) w `prefix_of` flat_map spec l
    /\ (forall a, result (for_each l body) w = Returned a ->
        trace (for_each l body) w = flat_map spec l).
Proof.
  intros Hpre Hret. induction l as [|x l IH]; intros w; simpl.
  - split; [apply prefix_nil | reflexivity].
  - specialize (Hpre x w). specialize (Hret x w).
    unfold trace, result, bind in *.
    destruct (body x w) as [[[a|e] w1] t1]; simpl in *.
    + destruct (IH w1) as [IHp IHr]. unfold trace, result in IHp, IHr.
      rewrite (Hret a eq_refl).
      destruct (for_each l body w1) as [[r w2] t2]; simpl in *.
      split; [by apply prefix_app | intros a' ->; by rewrite (IHr a')].
    + split; [by apply prefix_app_r | discriminate].
Qed.

End MonadFacts.

(* ================================================================== *)
(** * The orchestrator: startup                                       *)
(* ================================================================== *)

Section MonadSteps.
Context {W E : Type}.

Lemma read_bind {A B} (f : W -> A) (k : A -> M W E B) w :
  bind (read f) k w = k (f w) w.
Proof. unfold bind, read. destruct (k (f w) w) as [[r w2] t2]. reflexivity. Qed.

Lemma emit_bind {B} (ev : E) (k : unit -> M W E B) w :
  bind (emit ev) k w = (result (k tt) w, final (k tt) w, ev :: trace (k tt) w).
Proof.
  unfold bind, emit, result, final, trace.
  destruct (k tt w) as [[r w2] t2]. reflexivity.
Qed.

Lemma call_bind {A B} (ev : E) (f : op W A) (k : A -> M W E B) w :
  bind (call ev f) k w
  = match f w with
    | (Returned a, w1) => (result (k a) w1, final (k a) w1, ev :: trace (k a) w1)
    | (Raised e, w1) => (Raised e, w1, [ev])
    end.
Proof.
  unfold bind, call, result, final, trace.
  destruct (f w) as [[a|e] w1]; [|reflexivity].
  destruct (k a w1) as [[r w2] t2]. reflexivity.
Qed.

End MonadSteps.

Section Startup.
Context {W hub : Type} `{C : Collaborators W hub}.

Lemma connect_and_initialize_prefix (h : hub) (w : W) :
  trace (connect_and_initialize h) w
    `prefix_of` [EvHub h Connect; EvHub h Initialize].
Proof.
  unfold connect_and_initialize, trace. rewrite call_bind.
  destruct (hub_connect h w) as [[[]|e] w1]; simpl.
  - unfold trace, call. destruct (hub_initialize h w1) as [r w2]. done.
  - by exists [EvHub h Initialize].
Qed.

Lemma connect_and_initialize_returned (h : hub) (w : W) a :
  result (connect_and_initialize h) w = Returned a ->
  trace (connect_and_initialize h) w = [EvHub h Connect; EvHub h Initialize].
Proof.
  unfold connect_and_initialize, trace, result. rewrite call_bind.
  destruct (hub_connect h w) as [[[]|e] w1]; simpl; [|discriminate].
  unfold trace, call. destruct (hub_initialize h w1) as [r w2]. done.
Qed.

Lemma connect_and_initialize_ok (h : hub) (w w1 w2 : W) :
  hub_connect h w = (Returned tt, w1) ->
  hub_initialize h w1 = (Returned tt, w2) ->
  connect_and_initialize h w
  = (Returned tt, w2, [EvHub h Connect; EvHub h Initialize]).
Proof.
  intros Hc Hi. unfold connect_and_initialize. rewrite call_bind, Hc.
  unfold result, final, trace, call. rewrite Hi. reflexivity.
Qed.

Lemma connect_and_initialize_unreachable (h : hub) (w w1 : W) e :
  hub_connect h w = (Raised e, w1) ->
  connect_and_initialize h w = (Raised e, w1, [EvHub h Connect]).
Proof.
  intros Hc. unfold connect_and_initialize. rewrite call_bind, Hc. reflexivity.
Qed.

(** The loop of [initialize] over hubs that all start. *)
Lemma started_for_each (l : list hub) (w w1 : W) :
  started l w w1 ->
  for_each l connect_and_initialize w = (Returned tt, w1, startup_trace l).
Proof.
  induction 1 as [w | h l w wa wb wc Hc Hi _ IH]; [reflexivity|].
  simpl.
  rewrite (bind_returned_eq _ (fun _ => for_each l connect_and_initialize) _
             (connect_and_initialize_ok h w Hc Hi) IH).
  reflexivity.
Qed.

(** C2. [initialize] goes through the registry in registration order and,
    for each hub, calls [connect()] then [initialize()] before it touches
    the next hub: its trace is always an initial segment of
    connect/initialize pairs in registry order, and all of them when every
    hub starts.  When the hub at position k cannot connect, the exception
    of its [connect()] is the outcome of [initialize], and the last call
    made is that [connect()]: no later hub is connected. *)
Theorem initialize_registry_order (w : W) :
  trace initialize w `prefix_of` startup_trace (Hub_hubs w)
  /\ (forall w', started (Hub_hubs w) w w' ->
        initialize w = (Returned tt, w', startup_trace (Hub_hubs w)))
  /\ (forall pre h post w1 w2 e,
        Hub_hubs w = pre ++ h :: post ->
        started pre w w1 ->
        hub_connect h w1 = (Raised e, w2) ->
        initialize w = (Raised e, w2, startup_trace pre ++ [EvHub h Connect])).
Proof.
  unfold initialize. split; [|split].
  - unfold trace. rewrite read_bind.
    apply (for_each_prefix (fun h => [EvHub h Connect; EvHub h Initialize])).
    + apply connect_and_initialize_prefix.
    + apply connect_and_initialize_returned.
  - intros w' Hs. rewrite read_bind. by apply started_for_each.
  - intros pre h post w1 w2 e Hreg Hs Hc. rewrite read_bind, Hreg.
    eapply for_each_abort.
    + by apply started_for_each.
    + by apply connect_and_initialize_unreachable.
Qed.

End Startup.

(** Three hubs are registered and the second cannot be reached: the first
    is connected and initialized, the second fails to connect, and the third
    is never touched. *)
Lemma initialize_registry_order_witness :
  initialize (Bench.fresh [Bench.H1; Bench.Hdown; Bench.H2])
  = (Raised (Exception "ConnectionError"),
     Bench.BenchWorld [Bench.H1; Bench.Hdown; Bench.H2] [1],
     [EvHub Bench.H1 Connect; EvHub Bench.H1 Initialize;
      EvHub Bench.Hdown Connect]).
Proof.
  apply (proj2 (proj2 (initialize_registry_order
           (Bench.fresh [Bench.H1; Bench.Hdown; Bench.H2])))
         [Bench.H1] Bench.Hdown [Bench.H2]
         (Bench.BenchWorld [Bench.H1; Bench.Hdown; Bench.H2] [1])).
  - reflexivity.
  - eapply started_cons; [reflexivity | reflexivity | apply started_nil].
  - reflexivity.
Defined.

(* ================================================================== *)
(** * The orchestrator: teardown                                      *)
(* ================================================================== *)

Section Teardown.
Context {W hub : Type} `{C : Collaborators W hub}.

Lemma finalize_and_disconnect_ok (h : hub) (w w1 w2 : W) :
  hub_finalize h w = (Returned tt, w1) ->
  hub_disconnect h w1 = (Returned tt, w2) ->
  finalize_and_disconnect h w
  = (Returned tt, w2, [EvHub h Finalize; EvHub h Disconnect]).
Proof.
  intros Hf Hd. unfold finalize_and_disconnect. rewrite call_bind, Hf.
  unfold result, final, trace, call. rewrite Hd. reflexivity.
Qed.

Lemma finalize_and_disconnect_prefix (h : hub) (w : W) :
  trace (finalize_and_disconnect h) w
    `prefix_of` [EvHub h Finalize; EvHub h Disconnect].
Proof.
  unfold finalize_and_disconnect, trace. rewrite call_bind.
  destruct (hub_finalize h w) as [[[]|e] w1]; simpl.
  - unfold trace, call. destruct (hub_disconnect h w1) as [r w2]. done.
  - by exists [EvHub h Disconnect].
Qed.

Lemma finalize_and_disconnect_returned (h : hub) (w : W) a :
  result (finalize_and_disconnect h) w = Returned a ->
  trace (finalize_and_disconnect h) w = [EvHub h Finalize; EvHub h Disconnect].
Proof.
  unfold finalize_and_disconnect, trace, result. rewrite call_bind.
  destruct (hub_finalize h w) as [[[]|e] w1]; simpl; [|discriminate].
  unfold trace, call. destruct (hub_disconnect h w1) as [r w2]. done.
Qed.

(** The hub at which the first loop stops: its [finalize()] raises, or its
    [finalize()] returns and its [disconnect()] raises. *)
Lemma finalize_and_disconnect_raised (h : hub) (w w2 : W) e :
  hub_finalize h w = (Raised e, w2)
  \/ (exists w1, hub_finalize h w = (Returned tt, w1)
                 /\ hub_disconnect h w1 = (Raised e, w2)) ->
  exists t, finalize_and_disconnect h w = (Raised e, w2, t)
            /\ Forall (fun ev => is_disconnect_all ev = false) t.
Proof.
  unfold finalize_and_disconnect. rewrite call_bind.
  intros [Hf | (w1 & Hf & Hd)]; rewrite Hf.
  - exists [EvHub h Finalize]. split; [reflexivity | by repeat constructor].
  - unfold result, final, trace, call. rewrite Hd.
    exists [EvHub h Finalize; EvHub h Disconnect].
    split; [reflexivity | by repeat constructor].
Qed.

Lemma stopped_for_each (l : list hub) (w w1 : W) :
  stopped l w w1 ->
  for_each l finalize_and_disconnect w = (Returned tt, w1, teardown_trace l).
Proof.
  induction 1 as [w | h l w wa wb wc Hf Hd _ IH]; [reflexivity|].
  simpl.
  rewrite (bind_returned_eq _ (fun _ => for_each l finalize_and_disconnect) _
             (finalize_and_disconnect_ok h w Hf Hd) IH).
  reflexivity.
Qed.

Lemma reported_for_each (l : list hub) (flags : list bool) (w w1 : W) :
  reported l flags w w1 ->
  for_each l report_port_info w = (Returned tt, w1, port_info_trace l flags).
Proof.
  induction 1 as [w | h l flags w w' Hq _ IH | h l flags w wa w' Hq Hm _ IH];
    [reflexivity | |]; simpl.
  - assert (Hb : report_port_info h w = (Returned tt, w, [EvQueryPortInfo h false])).
    { unfold report_port_info. rewrite read_bind, Hq, emit_bind. reflexivity. }
    rewrite (bind_returned_eq _ (fun _ => for_each l report_port_info) _ Hb IH).
    reflexivity.
  - assert (Hb : report_port_info h w
                 = (Returned tt, wa, [EvQueryPortInfo h true; EvHub h MessageInfo])).
    { unfold report_port_info. rewrite read_bind, Hq, emit_bind.
      unfold result, final, trace, call. rewrite Hm. reflexivity. }
    rewrite (bind_returned_eq _ (fun _ => for_each l report_port_info) _ Hb IH).
    reflexivity.
Qed.

Lemma teardown_trace_no_disconnect_all (l : list hub) :
  Forall (fun ev => is_disconnect_all ev = false) (teardown_trace l).
Proof. induction l; simpl; by repeat constructor. Qed.

Lemma port_info_trace_no_disconnect_all (l : list hub) (flags : list bool) :
  Forall (fun ev => is_disconnect_all ev = false) (port_info_trace l flags).
Proof.
  revert flags. induction l as [|h l IH]; intros [|[] flags]; simpl;
    repeat constructor; apply IH.
Qed.

Lemma report_port_info_eq (h : hub) (w : W) :
  report_port_info h w
  = if hub_query_port_info h w
    then match hub_message_info h w with
         | (r, w1) => (r, w1, [EvQueryPortInfo h true; EvHub h MessageInfo])
         end
    else (Returned tt, w, [EvQueryPortInfo h false]).
Proof.
  unfold report_port_info. rewrite read_bind, emit_bind.
  destruct (hub_query_port_info h w); [|reflexivity].
  unfold result, final, trace, call.
  destruct (hub_message_info h w) as [r w1]. reflexivity.
Qed.

(** The second loop reads one flag per hub and reports the hubs whose flag
    is set. *)
Lemma for_each_report_shape (l : list hub) (w : W) :
  exists flags,
    length flags = length l
    /\ trace (for_each l report_port_info) w `prefix_of` port_info_trace l flags
    /\ (forall a, result (for_each l report_port_info) w = Returned a ->
        trace (for_each l report_port_info) w = port_info_trace l flags).
Proof.
  revert w. induction l as [|h l IH]; intros w.
  - exists []. simpl. split; [reflexivity | split; [apply prefix_nil | reflexivity]].
  - simpl. unfold trace, result, bind. rewrite report_port_info_eq.
    destruct (hub_query_port_info h w) eqn:Hq.
    + destruct (hub_message_info h w) as [[[]|e] w1].
      * destruct (IH w1) as (flags & Hlen & Hp & Hr). unfold trace, result in Hp, Hr.
        exists (true :: flags).
        destruct (for_each l report_port_info w1) as [[r w2] t2]; simpl in *.
        split; [by rewrite Hlen | split].
        -- by apply (prefix_app [_; _]).
        -- intros a ->. by rewrite (Hr a).
      * exists (true :: repeat false (length l)). simpl.
        rewrite repeat_length. split; [reflexivity | split; [|discriminate]].
        apply (prefix_app [_; _] []), prefix_nil.
    + destruct (IH w) as (flags & Hlen & Hp & Hr). unfold trace, result in Hp, Hr.
      exists (false :: flags).
      destruct (for_each l report_port_info w) as [[r w2] t2]; simpl in *.
      split; [by rewrite Hlen | split].
      * by apply (prefix_app [_]).
      * intros a ->. by rewrite (Hr a).
Qed.

(** [finalize] when no hub fails. *)
Lemma finalize_clean (w w1 w2 : W) (flags : list bool) :
  stopped (Hub_hubs w) w w1 ->
  reported (Hub_hubs w1) flags w1 w2 ->
  finalize w = (fst (disconnect_all w2), snd (disconnect_all w2),
                finalize_trace (Hub_hubs w) (Hub_hubs w1) flags).
Proof.
  intros Hs Hr. unfold finalize, finalize_trace.
  assert (H1 : finalize_hubs w = (Returned tt, w1, teardown_trace (Hub_hubs w))).
  { unfold finalize_hubs. rewrite read_bind. by apply stopped_for_each. }
  assert (H2 : finalize_port_info w1
               = (Returned tt, w2, port_info_trace (Hub_hubs w1) flags)).
  { unfold finalize_port_info. rewrite read_bind. by apply reported_for_each. }
  eapply bind_returned_eq; [exact H1|].
  eapply bind_returned_eq; [exact H2|].
  unfold call. destruct (disconnect_all w2) as [r w3]. reflexivity.
Qed.

End Teardown.

Section TeardownOrder.
Context {W hub : Type} `{C : Collaborators W hub}.

Lemma filter_none {A} (f : A -> bool) (l : list A) :
  Forall (fun x => f x = false) l -> List.filter f l = [].
Proof. induction 1 as [|x l Hx _ IH]; simpl; [reflexivity | by rewrite Hx]. Qed.

Lemma finalize_hubs_shape (w : W) :
  trace finalize_hubs w `prefix_of` teardown_trace (Hub_hubs w)
  /\ (forall a, result finalize_hubs w = Returned a ->
      trace finalize_hubs w = teardown_trace (Hub_hubs w)).
Proof.
  unfold finalize_hubs, trace, result. rewrite read_bind.
  apply (for_each_prefix (fun h => [EvHub h Finalize; EvHub h Disconnect])).
  - apply finalize_and_disconnect_prefix.
  - apply finalize_and_disconnect_returned.
Qed.

(** Whatever the hubs do, [finalize] never leaves the prescribed order. *)
Lemma finalize_shape (w : W) :
  exists hubs' flags,
    length flags = length hubs'
    /\ trace finalize w `prefix_of` finalize_trace (Hub_hubs w) hubs' flags
    /\ (forall a, result finalize w = Returned a ->
        trace finalize w = finalize_trace (Hub_hubs w) hubs' flags).
Proof.
  destruct (finalize_hubs_shape w) as [Hp1 Hr1].
  unfold finalize, finalize_trace, trace, result, bind in *.
  destruct (finalize_hubs w) as [[[[]|e1] w1] t1]; simpl in *.
  - rewrite (Hr1 tt eq_refl).
    destruct (for_each_report_shape (Hub_hubs w1) w1) as (flags & Hlen & Hp2 & Hr2).
    exists (Hub_hubs w1), flags. split; [exact Hlen|].
    unfold finalize_port_info. rewrite read_bind.
    unfold trace, result in Hp2, Hr2.
    destruct (for_each (Hub_hubs w1) report_port_info w1) as [[[[]|e2] w2] t2];
      simpl in *.
    + rewrite (Hr2 tt eq_refl). unfold call.
      destruct (disconnect_all w2) as [r w3]. simpl. split; [done|done].
    + split; [|discriminate]. by apply prefix_app, prefix_app_r.
  - exists [], []. split; [reflexivity|]. split; [|discriminate].
    by apply prefix_app_r.
Qed.

(** C5. [finalize] works in this order: for each registered hub, in
    registry order, the hub's [finalize()] then its [disconnect()]; only
    after the last hub, the port-info diagnostics, for the hubs whose
    [query_port_info] flag is found set and for no other; and last of all
    [disconnect_all()], once.  The trace of [finalize] is an initial segment
    of that sequence in every case and the whole of it whenever [finalize]
    returns; it is that sequence, over the registry and the flags of the
    hubs, when every hub finalizes and disconnects and the diagnostics are
    emitted. *)
Theorem finalize_order (w : W) :
  (exists hubs' flags,
      length flags = length hubs'
      /\ trace finalize w `prefix_of` finalize_trace (Hub_hubs w) hubs' flags
      /\ (forall a, result finalize w = Returned a ->
          trace finalize w = finalize_trace (Hub_hubs w) hubs' flags))
  /\ (forall w1 w2 flags,
        stopped (Hub_hubs w) w w1 ->
        reported (Hub_hubs w1) flags w1 w2 ->
        trace finalize w
        = teardown_trace (Hub_hubs w)
          ++ port_info_trace (Hub_hubs w1) flags ++ [EvDisconnectAll]
        /\ length (List.filter is_disconnect_all (trace finalize w)) = 1).
Proof.
  split; [apply finalize_shape|].
  intros w1 w2 flags Hs Hr.
  assert (Ht : trace finalize w = finalize_trace (Hub_hubs w) (Hub_hubs w1) flags).
  { unfold trace. by rewrite (finalize_clean Hs Hr). }
  split; [exact Ht|]. rewrite Ht. unfold finalize_trace.
  rewrite !List.filter_app.
  rewrite (filter_none _ (teardown_trace_no_disconnect_all _)).
  rewrite (filter_none _ (port_info_trace_no_disconnect_all _ _)).
  reflexivity.
Qed.

(** C4, as the code has it.  When every hub finalizes and disconnects and
    the diagnostics are emitted, [finalize] ends with [disconnect_all()],
    called once as its last step, and the outcome and world of
    [disconnect_all()] are those of [finalize].  When the [finalize()] or the
    [disconnect()] of a hub raises, that exception leaves [finalize] at once
    and [disconnect_all()] is not called. *)
Theorem finalize_disconnect_all_after_clean_teardown (w : W) :
  (forall w1 w2 flags,
      stopped (Hub_hubs w) w w1 ->
      reported (Hub_hubs w1) flags w1 w2 ->
      exists t,
        trace finalize w = t ++ [EvDisconnectAll]
        /\ Forall (fun ev => is_disconnect_all ev = false) t
        /\ result finalize w = fst (disconnect_all w2)
        /\ final finalize w = snd (disconnect_all w2))
  /\ (forall pre h post w1 w2 e,
        Hub_hubs w = pre ++ h :: post ->
        stopped pre w w1 ->
        (hub_finalize h w1 = (Raised e, w2)
         \/ exists w', hub_finalize h w1 = (Returned tt, w')
                       /\ hub_disconnect h w' = (Raised e, w2)) ->
        result finalize w = Raised e
        /\ final finalize w = w2
        /\ Forall (fun ev => is_disconnect_all ev = false) (trace finalize w)).
Proof.
  split.
  - intros w1 w2 flags Hs Hr.
    exists (teardown_trace (Hub_hubs w) ++ port_info_trace (Hub_hubs w1) flags).
    unfold result, final, trace. rewrite (finalize_clean Hs Hr). simpl.
    unfold finalize_trace. rewrite <- app_assoc. split; [reflexivity|].
    split; [|done].
    apply Forall_app. split.
    + apply teardown_trace_no_disconnect_all.
    + apply port_info_trace_no_disconnect_all.
  - intros pre h post w1 w2 e Hreg Hs Hraise.
    apply finalize_and_disconnect_raised in Hraise as (t & Hh & Ht).
    assert (H1 : finalize_hubs w = (Raised e, w2, teardown_trace pre ++ t)).
    { unfold finalize_hubs. rewrite read_bind, Hreg.
      eapply for_each_abort; [by apply stopped_for_each | exact Hh]. }
    unfold result, final, trace, finalize.
    rewrite (bind_raised _ _ _ H1). simpl.
    split; [reflexivity | split; [reflexivity|]].
    apply Forall_app. split; [apply teardown_trace_no_disconnect_all | exact Ht].
Qed.

End TeardownOrder.

(** Two connected hubs, the second of which asks for its port
    information: both are finalized and disconnected, then the second is
    reported, then everything is disconnected. *)
Lemma finalize_order_witness :
  trace finalize (Bench.connected [Bench.H1; Bench.H2])
  = [EvHub Bench.H1 Finalize; EvHub Bench.H1 Disconnect;
     EvHub Bench.H2 Finalize; EvHub Bench.H2 Disconnect;
     EvQueryPortInfo Bench.H1 false;
     EvQueryPortInfo Bench.H2 true; EvHub Bench.H2 MessageInfo;
     EvDisconnectAll]
  /\ length (List.filter is_disconnect_all
               (trace finalize (Bench.connected [Bench.H1; Bench.H2]))) = 1.
Proof.
  assert (Hs : stopped (Hub_hubs (Bench.connected [Bench.H1; Bench.H2]))
                 (Bench.connected [Bench.H1; Bench.H2])
                 (Bench.fresh [Bench.H1; Bench.H2])).
  { eapply stopped_cons; [reflexivity | reflexivity |].
    eapply stopped_cons; [reflexivity | reflexivity |]. apply stopped_nil. }
  assert (Hr : reported (Hub_hubs (Bench.fresh [Bench.H1; Bench.H2])) [false; true]
                 (Bench.fresh [Bench.H1; Bench.H2])
                 (Bench.fresh [Bench.H1; Bench.H2])).
  { apply reported_skip; [reflexivity|].
    eapply reported_info; [reflexivity | reflexivity |]. apply reported_nil. }
  exact (proj2 (finalize_order (Bench.connected [Bench.H1; Bench.H2])) _ _ _ Hs Hr).
Defined.

(** Against C4 as stated: the second of three connected hubs raises in its
    [finalize()].  [finalize] raises with it, [disconnect_all()] is not
    called, and the connections of the second and third hub stay open. *)
Lemma finalize_skips_disconnect_all :
  finalize (Bench.connected [Bench.H1; Bench.Hbad; Bench.H2])
  = (Raised (Exception "RuntimeError"),
     Bench.BenchWorld [Bench.H1; Bench.Hbad; Bench.H2] [5; 2],
     [EvHub Bench.H1 Finalize; EvHub Bench.H1 Disconnect;
      EvHub Bench.Hbad Finalize])
  /\ ~ In EvDisconnectAll
         (trace finalize (Bench.connected [Bench.H1; Bench.Hbad; Bench.H2])).
Proof.
  split; [reflexivity|].
  intros [H|[H|[H|[]]]]; discriminate H.
Qed.

(** Both halves of the amended C4 on the bench: a clean teardown ends with
    [disconnect_all()]; a teardown in which a hub raises does not reach it. *)
Lemma finalize_disconnect_all_after_clean_teardown_witness :
  (exists t,
      trace finalize (Bench.connected [Bench.H1; Bench.H2]) = t ++ [EvDisconnectAll]
      /\ Forall (fun ev => is_disconnect_all ev = false) t
      /\ result finalize (Bench.connected [Bench.H1; Bench.H2]) = Returned tt
      /\ final finalize (Bench.connected [Bench.H1; Bench.H2])
         = Bench.fresh [Bench.H1; Bench.H2])
  /\ (result finalize (Bench.connected [Bench.H1; Bench.Hbad; Bench.H2])
      = Raised (Exception "RuntimeError")
      /\ final finalize (Bench.connected [Bench.H1; Bench.Hbad; Bench.H2])
         = Bench.BenchWorld [Bench.H1; Bench.Hbad; Bench.H2] [5; 2]
      /\ Forall (fun ev => is_disconnect_all ev = false)
           (trace finalize (Bench.connected [Bench.H1; Bench.Hbad; Bench.H2]))).
Proof.
  assert (Hs : stopped (Hub_hubs (Bench.connected [Bench.H1; Bench.H2]))
                 (Bench.connected [Bench.H1; Bench.H2])
                 (Bench.fresh [Bench.H1; Bench.H2])).
  { eapply stopped_cons; [reflexivity | reflexivity |].
    eapply stopped_cons; [reflexivity | reflexivity |]. apply stopped_nil. }
  assert (Hr : reported (Hub_hubs (Bench.fresh [Bench.H1; Bench.H2])) [false; true]
                 (Bench.fresh [Bench.H1; Bench.H2])
                 (Bench.fresh [Bench.H1; Bench.H2])).
  { apply reported_skip; [reflexivity|].
    eapply reported_info; [reflexivity | reflexivity |]. apply reported_nil. }
  assert (Hs' : stopped [Bench.H1]
                  (Bench.connected [Bench.H1; Bench.Hbad; Bench.H2])
                  (Bench.BenchWorld [Bench.H1; Bench.Hbad; Bench.H2] [5; 2])).
  { eapply stopped_cons; [reflexivity | reflexivity |]. apply stopped_nil. }
  split.
  - exact (proj1 (finalize_disconnect_all_after_clean_teardown
                    (Bench.connected [Bench.H1; Bench.H2])) _ _ _ Hs Hr).
  - exact (proj2 (finalize_disconnect_all_after_clean_teardown
                    (Bench.connected [Bench.H1; Bench.Hbad; Bench.H2]))
             [Bench.H1] Bench.Hbad [Bench.H2] _ _ _ eq_refl Hs'
             (or_introl eq_refl)).
Defined.

(* ================================================================== *)
(** * The entry points [run] and [start]                              *)
(* ================================================================== *)

Section EntryPoints.
Context {W hub : Type} `{C : Collaborators W hub}.

Lemma try_finally_trace {A} (b : M W (event hub) A) (c : M W (event hub) unit) w :
  trace (try_finally b c) w = trace b w ++ trace c (final b w).
Proof.
  unfold trace, final, try_finally.
  destruct (b w) as [[r w1] t1]; simpl.
  destruct (c w1) as [[[a|e] w2] t2]; reflexivity.
Qed.

Lemma Forall_prefix {A} (P : A -> Prop) (t l : list A) :
  t `prefix_of` l -> Forall P l -> Forall P t.
Proof. intros [k ->] H. by apply Forall_app in H as [H _]. Qed.

Lemma finalize_trace_no_await (l l' : list hub) (flags : list bool) :
  Forall (fun ev => is_await_finalize ev = false) (finalize_trace l l' flags).
Proof.
  unfold finalize_trace. apply Forall_app. split; [|apply Forall_app; split].
  - induction l; simpl; by repeat constructor.
  - revert flags. induction l' as [|h l' IH]; intros [|[] flags]; simpl;
      repeat constructor; apply IH.
  - by repeat constructor.
Qed.

Lemma finalize_no_await (w : W) :
  Forall (fun ev => is_await_finalize ev = false) (trace finalize w).
Proof.
  destruct (finalize_shape w) as (hubs' & flags & _ & Hp & _).
  eapply Forall_prefix; [exact Hp | apply finalize_trace_no_await].
Qed.

Lemma startup_trace_no_await (l : list hub) :
  Forall (fun ev => is_await_finalize ev = false) (startup_trace l).
Proof. induction l; simpl; by repeat constructor. Qed.

(** The body of the [main] nested in [run]: once the hubs have started,
    [finalize()] is awaited exactly once, whatever the program is and
    whether it returns or raises. *)
Lemma run_main_finalizes_once (program : pyobj W) (w w1 : W) :
  started (Hub_hubs w) w w1 ->
  length (List.filter is_await_finalize (trace (run_main program) w)) = 1.
Proof.
  intros Hs.
  assert (Hi : initialize w = (Returned tt, w1, startup_trace (Hub_hubs w))).
  { unfold initialize. rewrite read_bind. by apply started_for_each. }
  unfold run_main, trace. rewrite emit_bind. simpl.
  unfold trace. rewrite (bind_returned _ _ _ Hi). simpl.
  rewrite List.filter_app, (filter_none _ (startup_trace_no_await _)). simpl.
  rewrite try_finally_trace, List.filter_app.
  set (b := bind (call_object program) (fun coro => await_value EvProgram coro)).
  assert (Hb : List.filter is_await_finalize (trace b w1) = []).
  { unfold b, trace, bind, call_object, await_value, call, ret, raise.
    destruct program as [|f|f|f|]; simpl; try reflexivity.
    - destruct (f w1) as [r w2]. reflexivity.
    - destruct (f w1) as [[[c|]|e] w2]; simpl; try reflexivity.
      destruct (c w2) as [r w3]. reflexivity. }
  rewrite Hb. simpl. unfold trace at 1. rewrite emit_bind. simpl.
  by rewrite (filter_none _ (finalize_no_await _)).
Qed.

(** C1, on the code.  [run] defines [main] without a parameter and calls it
    with one: the call raises [TypeError] when the argument is bound, before
    the coroutine exists.  Whatever the program and the world, [run] raises;
    the only call it has made is [get_event_loop()]; neither [initialize()]
    nor [finalize()] is awaited. *)
Theorem run_never_enters_main (program : pyobj W) (w : W) :
  trace (run program) w = [EvGetEventLoop]
  /\ (exists e, result (run program) w = Raised e)
  /\ List.filter is_await_finalize (trace (run program) w) = [].
Proof.
  unfold run, trace, result. rewrite call_bind.
  destruct (get_event_loop w) as [[[]|e] w1]; simpl.
  - unfold result, trace, bind, call_async_def, raise; simpl.
    split; [reflexivity | split; [eauto | reflexivity]].
  - split; [reflexivity | split; [eauto | reflexivity]].
Qed.

Lemma program_is_unbound :
  existsb (String.eqb "program") module_globals = false.
Proof. reflexivity. Qed.

Lemma load_global_program (w : W) :
  ~ In "program"%string builtins ->
  load_global (hub := hub) "program" w = (Raised (NameError "program"), w, []).
Proof.
  intros Hb. unfold load_global.
  rewrite existsb_app, program_is_unbound, orb_false_l.
  destruct (existsb (String.eqb "program") builtins) eqn:Hex; [|reflexivity].
  apply existsb_exists in Hex as (x & Hin & Heq).
  apply String.eqb_eq in Heq. subst x. contradiction.
Qed.

Lemma start_name_error (setup : pyobj W) (w w1 w2 : W) :
  warnings_warn "start() is deprecated, use run() instread"
                "DeprecationWarning" w = (Returned tt, w1) ->
  get_event_loop w1 = (Returned tt, w2) ->
  ~ In "program"%string builtins ->
  start setup w
  = (Raised (NameError "program"), w2, [deprecation_warning; EvGetEventLoop]).
Proof.
  intros Hw Hl Hb. unfold start.
  change [deprecation_warning; EvGetEventLoop]
    with ([deprecation_warning] ++ [EvGetEventLoop (hub := hub)] ++ []).
  eapply bind_returned_eq; [by apply call_eq|].
  eapply bind_returned_eq; [by apply call_eq|].
  apply bind_raised. by apply load_global_program.
Qed.

(** After the warning and [get_event_loop()], the call [main(program)]
    raises in every world, bound name or not. *)
Lemma start_main_call_raises (setup : pyobj W) (w : W) :
  exists e,
    bind (load_global "program")
      (fun program =>
         bind (call_async_def (AsyncDef [] (start_main setup)) [program])
           (fun coro => bind (emit EvRunUntilComplete) (fun _ => coro))) w
    = (Raised e, w, []).
Proof.
  unfold bind, load_global, call_async_def, ret, raise.
  destruct (existsb _ _); simpl; eauto.
Qed.

(** C9, on the code.  [start] passes [main] the name [program], which is
    bound neither in [start] nor in the module: evaluating the argument
    raises [NameError] (and were the name bound, the call would raise
    [TypeError], since [main] takes no parameter).  Whatever the setup and
    the world, [start] raises after at most the warning and
    [get_event_loop()]: the setup coroutine is not awaited, no hub is
    initialized, no task is spawned and [finalize()] is not run. *)
Theorem start_never_enters_main (setup : pyobj W) (w : W) :
  (exists e, result (start setup) w = Raised e)
  /\ trace (start setup) w `prefix_of` [deprecation_warning; EvGetEventLoop]
  /\ Forall (fun ev => in_main ev = false) (trace (start setup) w)
  /\ (forall w1 w2,
        warnings_warn "start() is deprecated, use run() instread"
                      "DeprecationWarning" w = (Returned tt, w1) ->
        get_event_loop w1 = (Returned tt, w2) ->
        ~ In "program"%string builtins ->
        start setup w
        = (Raised (NameError "program"), w2,
           [deprecation_warning; EvGetEventLoop])).
Proof.
  split; [|split; [|split]]; [| | |apply start_name_error].
  all: unfold start, trace, result; rewrite call_bind.
  all: destruct (warnings_warn _ _ w) as [[[]|e] w1]; simpl.
  all: try (unfold result, trace; rewrite call_bind;
            destruct (get_event_loop w1) as [[[]|e] w2]; simpl).
  all: try (destruct (start_main_call_raises setup w2) as (e & He);
            unfold result, trace; rewrite He; simpl).
  all: eauto.
  all: try done.
  all: try by repeat constructor.
  all: by eexists.
Qed.

(** C10.  The first thing [start] does, whatever its argument and the
    world, is to emit the [DeprecationWarning]: the setup coroutine, the
    hubs and the event loop come after it in the trace, if at all. *)
Theorem start_warns_first (setup : pyobj W) (w : W) :
  exists rest, trace (start setup) w = deprecation_warning :: rest.
Proof.
  unfold start, trace. rewrite call_bind.
  destruct (warnings_warn _ _ w) as [[[]|e] w1]; simpl; eauto.
Qed.

End EntryPoints.

(** The body of [main] on the bench, with a program that raises: the hub is
    started, the program fails, [finalize()] is awaited once, and the
    exception of the program is the outcome. *)
Lemma run_main_finalizes_after_failure :
  run_main Bench.failing_program (Bench.fresh [Bench.H1])
  = (Raised (Exception "ValueError"), Bench.fresh [Bench.H1],
     [EvAwait FnInitialize;
      EvHub Bench.H1 Connect; EvHub Bench.H1 Initialize;
      EvProgram;
      EvAwait FnFinalize;
      EvHub Bench.H1 Finalize; EvHub Bench.H1 Disconnect;
      EvQueryPortInfo Bench.H1 false;
      EvDisconnectAll]).
Proof. reflexivity. Qed.

(** [run] itself on the same input stops at the call of [main]. *)
Lemma run_raises_type_error :
  run Bench.failing_program (Bench.fresh [Bench.H1])
  = (Raised (TypeError "wrong number of positional arguments"),
     Bench.fresh [Bench.H1], [EvGetEventLoop]).
Proof. reflexivity. Qed.

(** On the bench [program] is not a builtin, the warning is let through and
    an event loop exists: [start] raises [NameError]. *)
Lemma start_never_enters_main_witness :
  start Bench.quiet_program (Bench.fresh [Bench.H1])
  = (Raised (NameError "program"), Bench.fresh [Bench.H1],
     [deprecation_warning; EvGetEventLoop]).
Proof.
  apply (proj2 (proj2 (proj2 (start_never_enters_main Bench.quiet_program
                                (Bench.fresh [Bench.H1]))))
           (Bench.fresh [Bench.H1]) (Bench.fresh [Bench.H1])).
  - reflexivity.
  - reflexivity.
  - simpl. intros [H|[H|[H|[H|[H|[]]]]]]; discriminate H.
Defined.

(* ================================================================== *)
(** * The decorator: what [wrapper_f] does                            *)
(* ================================================================== *)

Section Wrapper.
Context {W hub peripheral : Type} `{HC : HubClasses W hub peripheral}.

(** [wrapper_f] returns the hub as soon as its four calls return: it adds
    no failure of its own. *)
Lemma wrapper_f_run (self : attach) (cls : constructor W hub peripheral)
    (args : call_args) (w w1 w2 w3 w4 : W) p o t :
  peripheral_new (peripheral_type self) (attach_kwargs self) w = (Returned p, w1) ->
  ctor_call cls args w1 = (Returned o, w2, t) ->
  hub_message_debug o (debug_message (ctor_name cls) self) w2 = (Returned tt, w3) ->
  hub_attach_sensor o p w3 = (Returned tt, w4) ->
  wrapper_f self cls args w
  = (Returned o, w4,
     EvPeripheral (peripheral_type self) (attach_kwargs self)
     :: t ++ [EvMessageDebug o (debug_message (ctor_name cls) self);
              EvAttachSensor o p]).
Proof.
  intros Hp Ho Hd Ha. unfold wrapper_f.
  rewrite call_bind, Hp. unfold result, final, trace.
  rewrite (bind_returned _ _ _ Ho). simpl.
  fold (debug_message (ctor_name cls) self).
  unfold result, final, trace. rewrite call_bind, Hd.
  unfold result, final, trace. rewrite call_bind, Ha. reflexivity.
Qed.

(** Conversely, when [wrapper_f] returns, its four calls have returned, in
    this order. *)
Lemma wrapper_f_returned (self : attach) (cls : constructor W hub peripheral)
    (args : call_args) (w w4 : W) o t' :
  wrapper_f self cls args w = (Returned o, w4, t') ->
  exists p w1 w2 w3 t,
    peripheral_new (peripheral_type self) (attach_kwargs self) w = (Returned p, w1)
    /\ ctor_call cls args w1 = (Returned o, w2, t)
    /\ hub_message_debug o (debug_message (ctor_name cls) self) w2 = (Returned tt, w3)
    /\ hub_attach_sensor o p w3 = (Returned tt, w4)
    /\ t' = EvPeripheral (peripheral_type self) (attach_kwargs self)
            :: t ++ [EvMessageDebug o (debug_message (ctor_name cls) self);
                     EvAttachSensor o p].
Proof.
  unfold wrapper_f. fold (debug_message (ctor_name cls) self).
  rewrite call_bind.
  destruct (peripheral_new _ _ w) as [[p|e] w1]; [|discriminate].
  unfold result, final, trace, bind.
  destruct (ctor_call cls args w1) as [[[o'|e] w2] t] eqn:Ho; [|discriminate].
  unfold call, ret.
  destruct (hub_message_debug o' _ w2) as [[[]|e] w3] eqn:Hd; [|discriminate].
  destruct (hub_attach_sensor o' p w3) as [[[]|e] w5] eqn:Ha; [|discriminate].
  simpl. intros H. inversion H; subst.
  by exists p, w1, w2, w3, t.
Qed.

Lemma ctor_name_decorate (ds : list attach) (cls : class_ref) :
  ctor_name (decorate (W := W) (hub := hub) (peripheral := peripheral) ds cls) = cls.
Proof. induction ds as [|d ds IH]; simpl; done. Qed.



(** C7.  A hub class under one [attach]: the decorated constructor returns
    a hub exactly when these four calls return, made in this order: the
    peripheral class is instantiated with the options kept by the
    decorator; the hub class is instantiated with the caller's own
    arguments; the hub logs the binding; the peripheral is handed to the
    hub's [attach_sensor].  The hub returned is the one the class
    constructed. *)
Theorem attach_construction_order (self : attach) (cls : class_ref)
    (args : call_args) (w w' : W) (o : hub) (t : list (attach_event hub peripheral)) :
  ctor_call (attach_call self (hub_class cls)) args w = (Returned o, w', t)
  <-> exists p w1 w2 w3,
        peripheral_new (peripheral_type self) (attach_kwargs self) w
          = (Returned p, w1)
        /\ hub_new cls args w1 = (Returned o, w2)
        /\ hub_message_debug o (debug_message cls self) w2 = (Returned tt, w3)
        /\ hub_attach_sensor o p w3 = (Returned tt, w')
        /\ t = [EvPeripheral (peripheral_type self) (attach_kwargs self);
                EvConstruct cls args;
                EvMessageDebug o (debug_message cls self);
                EvAttachSensor o p].
Proof.
  simpl. split.
  - intros H. apply wrapper_f_returned in H
      as (p & w1 & w2 & w3 & ti & Hp & Ho & Hd & Ha & ->).
    simpl in Ho, Hd. unfold call in Ho.
    destruct (hub_new cls args w1) as [r wn] eqn:Hn.
    inversion Ho; subst. by exists p, w1, w2, w3.
  - intros (p & w1 & w2 & w3 & Hp & Ho & Hd & Ha & ->).
    erewrite wrapper_f_run;
      [ | exact Hp | simpl; by apply call_eq | exact Hd | exact Ha ];
      reflexivity.
Qed.




End Wrapper.

(* ================================================================== *)
(** * The decorator on the bench                                      *)
(* ================================================================== *)

(** One [attach] on the bench: the motor is created, the hub is created
    with the model name, and the motor ends up under the attribute
    [front_drive] of the hub. *)
Lemma attach_construction_order_witness :
  exists w',
    ctor_call (attach_call Workbench.front_drive (hub_class "XtremeOffRoader"))
              Workbench.vehicle_args Workbench.empty_world
    = (Returned 0, w',
       [EvPeripheral "CPlusXLMotor" [("name", VStr "front_drive"); ("port", VInt 0)];
        EvConstruct "XtremeOffRoader" Workbench.vehicle_args;
        EvMessageDebug 0 "Decorating class XtremeOffRoader with CPlusXLMotor";
        EvAttachSensor 0 (Workbench.Peripheral "CPlusXLMotor" "front_drive"
                                               (Some 0%Z) [])])
    /\ Workbench.attribute w' 0 "front_drive"
       = Some (Workbench.Peripheral "CPlusXLMotor" "front_drive" (Some 0%Z) []).
Proof.
  eexists. split.
  - apply (proj2 (attach_construction_order Workbench.front_drive "XtremeOffRoader"
                    Workbench.vehicle_args Workbench.empty_world _ 0 _)).
    do 4 eexists. repeat split; reflexivity.
  - reflexivity.
Defined.



(** C3, on the code.  A sensor with the capability [sense_temp] is attached
    to a hub class that defines no method at all, so neither [temp_change]
    nor any other callback.  The decorated constructor makes its four calls
    and returns the hub with the sensor attached: [wrapper_f] holds no check
    of the capabilities, although the docstring of [attach.__call__] lists
    that check among its steps. *)
Theorem sensing_peripheral_attached_without_callback :
  let m := ctor_call Workbench.PlainHub Workbench.vehicle_args in
  existsb Workbench.is_sensing
          (Workbench.kw_capabilities (attach_kwargs Workbench.temp_sensor)) = true
  /\ result m Workbench.empty_world = Returned 0
  /\ Workbench.hasattr (final m Workbench.empty_world) 0 "temp_change" = false
  /\ Workbench.attribute (final m Workbench.empty_world) 0 "temp"
     = Some (Workbench.Peripheral "SensorX" "temp" (Some 0%Z) ["sense_temp"%string])
  /\ trace m Workbench.empty_world
     = [EvPeripheral "SensorX" (attach_kwargs Workbench.temp_sensor);
        EvConstruct "PlainHub" Workbench.vehicle_args;
        EvMessageDebug 0 "Decorating class PlainHub with SensorX";
        EvAttachSensor 0 (Workbench.Peripheral "SensorX" "temp" (Some 0%Z)
                                               ["sense_temp"%string])].
Proof. repeat split; reflexivity. Qed.

(* ================================================================== *)
(** * The command channel: FIFO dispatch                              *)
(* ================================================================== *)

Module ChannelFacts.
Import CommandChannel.
























End ChannelFacts.

(* ================================================================== *)
(** * The orchestrator: where a failure leaves it                      *)
(* ================================================================== *)

Section Failures.
Context {W hub : Type} `{C : Collaborators W hub}.

Lemma try_finally_eq {A} (b : M W (event hub) A) (c : M W (event hub) unit)
    w r w1 t1 :
  b w = (r, w1, t1) ->
  try_finally b c w = (after_cleanup r (result c w1), final c w1, t1 ++ trace c w1).
Proof.
  intros Hb. unfold try_finally, result, final, trace. rewrite Hb.
  destruct (c w1) as [[[a|e] w2] t2]; reflexivity.
Qed.

Lemma await_finalize_eq (w : W) :
  bind (emit (EvAwait FnFinalize)) (fun _ => finalize) w
  = (result finalize w, final finalize w, EvAwait FnFinalize :: trace finalize w).
Proof. by rewrite emit_bind. Qed.

Lemma await_initialize_eq {A} (k : M W (event hub) A) (w : W) :
  bind (emit (EvAwait FnInitialize)) (fun _ => bind initialize (fun _ => k)) w
  = match initialize w with
    | (Returned _, w1, t1) =>
        (result k w1, final k w1, EvAwait FnInitialize :: t1 ++ trace k w1)
    | (Raised e, w1, t1) => (Raised e, w1, EvAwait FnInitialize :: t1)
    end.
Proof.
  rewrite emit_bind. unfold result, final, trace, bind.
  destruct (initialize w) as [[[a|e] w1] t1]; [|reflexivity].
  destruct (k w1) as [[r w2] t2]. reflexivity.
Qed.

Lemma started_initialize (w w1 : W) :
  started (Hub_hubs w) w w1 ->
  initialize w = (Returned tt, w1, startup_trace (Hub_hubs w)).
Proof. intros Hs. unfold initialize. rewrite read_bind. by apply started_for_each. Qed.

(** When the [initialize()] of the hub at position k raises, after its
    [connect()] has returned, [initialize] raises that exception at once:
    the hub stays connected, the hubs before it stay connected and
    initialized, and nothing is undone. *)
Theorem initialize_stops_at_failing_initialize
    (w w1 w2 w3 : W) (pre post : list hub) (h : hub) (e : exn) :
  Hub_hubs w = pre ++ h :: post ->
  started pre w w1 ->
  hub_connect h w1 = (Returned tt, w2) ->
  hub_initialize h w2 = (Raised e, w3) ->
  initialize w
  = (Raised e, w3, startup_trace pre ++ [EvHub h Connect; EvHub h Initialize]).
Proof.
  intros Hreg Hs Hc Hi. unfold initialize. rewrite read_bind, Hreg.
  eapply for_each_abort; [by apply started_for_each|].
  unfold connect_and_initialize. rewrite call_bind, Hc.
  unfold result, final, trace, call. by rewrite Hi.
Qed.

(** When the [finalize()] of the hub at position k raises, [finalize] stops
    there: that hub is not disconnected and no later hub is finalized or
    disconnected.  When its [disconnect()] raises, [finalize] stops after
    that call. *)
Theorem finalize_stops_at_failing_hub
    (w w1 : W) (pre post : list hub) (h : hub) :
  Hub_hubs w = pre ++ h :: post ->
  stopped pre w w1 ->
  (forall e w2,
      hub_finalize h w1 = (Raised e, w2) ->
      finalize w = (Raised e, w2, teardown_trace pre ++ [EvHub h Finalize]))
  /\ (forall e w2 w3,
        hub_finalize h w1 = (Returned tt, w2) ->
        hub_disconnect h w2 = (Raised e, w3) ->
        finalize w
        = (Raised e, w3,
           teardown_trace pre ++ [EvHub h Finalize; EvHub h Disconnect])).
Proof.
  intros Hreg Hs. split.
  - intros e w2 Hf. unfold finalize. apply bind_raised.
    unfold finalize_hubs. rewrite read_bind, Hreg.
    eapply for_each_abort; [by apply stopped_for_each|].
    unfold finalize_and_disconnect. by rewrite call_bind, Hf.
  - intros e w2 w3 Hf Hd. unfold finalize. apply bind_raised.
    unfold finalize_hubs. rewrite read_bind, Hreg.
    eapply for_each_abort; [by apply stopped_for_each|].
    unfold finalize_and_disconnect. rewrite call_bind, Hf.
    unfold result, final, trace, call. by rewrite Hd.
Qed.

(** The diagnostics are not best effort: when the [message_info] of a hub
    that asks for its port information raises, after every hub has been
    finalized and disconnected, [finalize] raises that exception and
    [disconnect_all()] is not called. *)
Theorem finalize_stops_at_failing_diagnostics
    (w w1 w2 w3 : W) (pre post : list hub) (h : hub) (flags : list bool) (e : exn) :
  stopped (Hub_hubs w) w w1 ->
  Hub_hubs w1 = pre ++ h :: post ->
  reported pre flags w1 w2 ->
  hub_query_port_info h w2 = true ->
  hub_message_info h w2 = (Raised e, w3) ->
  finalize w
  = (Raised e, w3,
     teardown_trace (Hub_hubs w) ++ port_info_trace pre flags
     ++ [EvQueryPortInfo h true; EvHub h MessageInfo]).
Proof.
  intros Hs Hreg Hr Hq Hm. unfold finalize.
  assert (H1 : finalize_hubs w = (Returned tt, w1, teardown_trace (Hub_hubs w))).
  { unfold finalize_hubs. rewrite read_bind. by apply stopped_for_each. }
  eapply bind_returned_eq; [exact H1|].
  apply bind_raised. unfold finalize_port_info. rewrite read_bind, Hreg.
  eapply for_each_abort; [by apply reported_for_each|].
  by rewrite report_port_info_eq, Hq, Hm.
Qed.

(** With no hub registered, [initialize] makes no call at all and
    [finalize] makes exactly one, [disconnect_all()], whose outcome is its
    own. *)
Theorem empty_registry (w : W) :
  Hub_hubs w = [] ->
  initialize w = (Returned tt, w, [])
  /\ finalize w = (fst (disconnect_all w), snd (disconnect_all w), [EvDisconnectAll]).
Proof.
  intros Hreg. split.
  - unfold initialize. by rewrite read_bind, Hreg.
  - assert (H1 : finalize_hubs w = (Returned tt, w, [])).
    { unfold finalize_hubs. by rewrite read_bind, Hreg. }
    assert (H2 : finalize_port_info w = (Returned tt, w, [])).
    { unfold finalize_port_info. by rewrite read_bind, Hreg. }
    unfold finalize.
    change [EvDisconnectAll (hub := hub)] with ([] ++ [] ++ [EvDisconnectAll (hub := hub)]).
    eapply bind_returned_eq; [exact H1|].
    eapply bind_returned_eq; [exact H2|].
    unfold call. by destruct (disconnect_all w).
Qed.

(** In the [main] of [run], [initialize()] is awaited outside the cleanup
    block: when it raises, [main] raises with it, the program is not
    awaited and [finalize()] is not awaited, so whatever was connected stays
    connected. *)
Theorem run_main_startup_failure (program : pyobj W) (w : W) (e : exn) :
  result initialize w = Raised e ->
  run_main program w
  = (Raised e, final initialize w, EvAwait FnInitialize :: trace initialize w).
Proof.
  unfold run_main, result, final, trace. intros Hi. rewrite await_initialize_eq.
  destruct (initialize w) as [[[a|e'] w1] t1]; simpl in *; [discriminate|].
  by inversion Hi.
Qed.

(** In the [main] of [run], once the hubs have started and the program is
    an async function: the program is awaited, then [finalize()], in this
    order and once each.  The outcome of [main] is the exception of
    [finalize()] when it raises, and the outcome of the program otherwise. *)
Theorem run_main_outcome (f : op W unit) (w w1 w2 : W) (r : outcome unit) :
  started (Hub_hubs w) w w1 ->
  f w1 = (r, w2) ->
  run_main (PyAsyncFunction f) w
  = (after_cleanup r (result finalize w2), final finalize w2,
     EvAwait FnInitialize
     :: startup_trace (Hub_hubs w)
        ++ EvProgram :: EvAwait FnFinalize :: trace finalize w2).
Proof.
  intros Hs Hf. unfold run_main. rewrite await_initialize_eq.
  rewrite (started_initialize Hs).
  assert (Hb : bind (call_object (E := event hub) (PyAsyncFunction f))
                 (fun coro => await_value EvProgram coro) w1
               = (r, w2, [EvProgram])).
  { unfold call_object, bind, ret, await_value, call. by rewrite Hf. }
  unfold result, final, trace. rewrite (try_finally_eq _ _ _ Hb).
  unfold result, final, trace. rewrite await_finalize_eq. reflexivity.
Qed.

End Failures.

(* ================================================================== *)
(** * The bodies of the two [main] coroutines                          *)
(* ================================================================== *)

Section Mains.
Context {W hub : Type} `{C : Collaborators W hub}.

Lemma call_object_not_callable (program : pyobj W) (w : W) :
  is_callable program = false ->
  exists msg,
    call_object (E := event hub) program w = (Raised (TypeError msg), w, []).
Proof. destruct program; simpl; intros H; try discriminate; eauto. Qed.

(** What [main] does from a cleanup block whose body raised in [w']. *)
Lemma run_main_body_raised (program : pyobj W) (w w1 w' : W) e t :
  started (Hub_hubs w) w w1 ->
  bind (call_object (E := event hub) program)
       (fun coro => await_value EvProgram coro) w1 = (Raised e, w', t) ->
  run_main program w
  = (after_cleanup (Raised e) (result finalize w'), final finalize w',
     EvAwait FnInitialize
     :: startup_trace (Hub_hubs w) ++ t ++ EvAwait FnFinalize :: trace finalize w').
Proof.
  intros Hs Hb. unfold run_main. rewrite await_initialize_eq.
  rewrite (started_initialize Hs).
  unfold result, final, trace. rewrite (try_finally_eq _ _ _ Hb).
  unfold result, final, trace. rewrite await_finalize_eq. reflexivity.
Qed.

(** In the [main] of [run], once the hubs have started.  When the program
    handed over cannot be called (a coroutine object, as in the docstring
    of [run] and in the example, or the default [None]), [program()] raises
    [TypeError] inside the cleanup block and nothing of the program runs.
    When it is a plain callable whose value cannot be awaited, its body runs
    at [program()] and it is the [await] that raises [TypeError].  In both
    cases [finalize()] is awaited, from the world the failure left, and
    [main] raises [TypeError] unless [finalize()] raises itself. *)
Theorem run_main_type_error (program : pyobj W) (w w1 : W) :
  started (Hub_hubs w) w w1 ->
  (is_callable program = false ->
   exists msg,
     run_main program w
     = (after_cleanup (Raised (TypeError msg)) (result finalize w1),
        final finalize w1,
        EvAwait FnInitialize
        :: startup_trace (Hub_hubs w) ++ EvAwait FnFinalize :: trace finalize w1))
  /\ (forall f w2,
        program = PyFunction f ->
        f w1 = (Returned None, w2) ->
        exists msg,
          run_main program w
          = (after_cleanup (Raised (TypeError msg)) (result finalize w2),
             final finalize w2,
             EvAwait FnInitialize
             :: startup_trace (Hub_hubs w)
                ++ EvAwait FnFinalize :: trace finalize w2)).
Proof.
  intros Hs. split.
  - intros Hp. destruct (call_object_not_callable program w1 Hp) as (msg & Hc).
    exists msg. apply (run_main_body_raised program Hs (t := [])).
    by apply bind_raised.
  - intros f w2 -> Hf. eexists.
    apply (run_main_body_raised (PyFunction f) Hs (t := [])).
    unfold bind, call_object, await_value, raise. rewrite Hf. reflexivity.
Qed.

(** In the [main] of [start], the setup coroutine is awaited first and
    outside the cleanup block: when it raises, when [setup] cannot be
    called, or when [setup] is a plain callable that raises or whose value
    cannot be awaited, [main] raises at once; no hub is connected and
    [finalize()] is not awaited. *)
Theorem start_main_setup_failure (w : W) :
  (forall f e w0,
      f w = (Raised e, w0) ->
      start_main (PyAsyncFunction f) w = (Raised e, w0, [EvSetup]))
  /\ (forall setup,
        is_callable setup = false ->
        exists msg, start_main setup w = (Raised (TypeError msg), w, []))
  /\ (forall f w0,
        f w = (Returned None, w0) ->
        exists msg, start_main (PyFunction f) w = (Raised (TypeError msg), w0, []))
  /\ (forall f e w0,
        f w = (Raised e, w0) ->
        start_main (PyFunction f) w = (Raised e, w0, [])).
Proof.
  split; [|split; [|split]].
  - intros f e w0 Hf. unfold start_main. apply bind_raised.
    unfold call_object, bind, ret, await_value, call. by rewrite Hf.
  - intros setup Hp.
    destruct (call_object_not_callable setup w Hp) as (msg & Hc).
    exists msg. unfold start_main. apply bind_raised. by apply bind_raised.
  - intros f w0 Hf. eexists. unfold start_main. apply bind_raised.
    unfold bind, call_object, await_value, raise. rewrite Hf. reflexivity.
  - intros f e w0 Hf. unfold start_main. apply bind_raised.
    unfold bind, call_object. by rewrite Hf.
Qed.

Lemma all_return_for_each {A} (f : A -> op W unit) (ev : A -> event hub)
    (l : list A) (w w1 : W) :
  all_return f l w w1 ->
  for_each l (fun x => call (ev x) (f x)) w = (Returned tt, w1, map ev l).
Proof.
  induction 1 as [w | x l w wa wb Hx _ IH]; [reflexivity|].
  simpl.
  rewrite (bind_returned_eq _ (fun _ => for_each l (fun x => call (ev x) (f x))) _
             (call_eq (ev x) (f x) w Hx) IH).
  reflexivity.
Qed.

Lemma start_main_eq (f : op W unit) (w w0 w1 : W)
    (k : M W (event hub) unit) :
  f w = (Returned tt, w0) ->
  started (Hub_hubs w0) w0 w1 ->
  bind (bind (call_object (PyAsyncFunction f))
             (fun coro => await_value EvSetup coro))
       (fun _ => bind (emit (EvAwait FnInitialize))
                      (fun _ => bind initialize (fun _ => k))) w
  = (result k w1, final k w1,
     EvSetup :: EvAwait FnInitialize :: startup_trace (Hub_hubs w0) ++ trace k w1).
Proof.
  intros Hf Hs.
  assert (H0 : bind (call_object (E := event hub) (PyAsyncFunction f))
                 (fun coro => await_value EvSetup coro) w
               = (Returned tt, w0, [EvSetup])).
  { unfold call_object, bind, ret, await_value, call. by rewrite Hf. }
  rewrite (bind_returned _ _ _ H0). unfold result, final, trace.
  rewrite await_initialize_eq, (started_initialize Hs). reflexivity.
Qed.

(** In the [main] of [start], when setup returns and the hubs start: the
    [run()] coroutine of every registered hub is spawned, in registry order,
    before the first task is awaited; the tasks are then awaited in the same
    order; [finalize()] is awaited last.  [main] raises only if [finalize()]
    does. *)
Theorem start_main_order (f : op W unit) (w w0 w1 w2 w3 : W) :
  f w = (Returned tt, w0) ->
  started (Hub_hubs w0) w0 w1 ->
  all_return spawn_hub_run (Hub_hubs w1) w1 w2 ->
  all_return await_task (Hub_hubs w1) w2 w3 ->
  start_main (PyAsyncFunction f) w
  = (after_cleanup (Returned tt) (result finalize w3), final finalize w3,
     EvSetup :: EvAwait FnInitialize
     :: startup_trace (Hub_hubs w0)
        ++ (map (@EvSpawn hub) (Hub_hubs w1) ++ map (@EvAwaitTask hub) (Hub_hubs w1))
        ++ EvAwait FnFinalize :: trace finalize w3).
Proof.
  intros Hf Hs Hsp Haw. unfold start_main. rewrite (start_main_eq _ _ _ Hf Hs).
  assert (Hb : bind (read Hub_hubs)
                 (fun hubs =>
                    bind (for_each hubs (fun h => call (EvSpawn h) (spawn_hub_run h)))
                      (fun _ => for_each hubs
                                  (fun h => call (EvAwaitTask h) (await_task h)))) w1
               = (Returned tt, w3,
                  map (@EvSpawn hub) (Hub_hubs w1) ++ map (@EvAwaitTask hub) (Hub_hubs w1))).
  { rewrite read_bind.
    eapply bind_returned_eq; by apply all_return_for_each. }
  unfold result, final, trace. rewrite (try_finally_eq _ _ _ Hb).
  unfold result, final, trace. rewrite await_finalize_eq. reflexivity.
Qed.

(** In the [main] of [start], when the task of the hub at position k
    raises: the tasks of the later hubs, although spawned, are not awaited;
    [finalize()] is awaited all the same; and [main] raises the exception of
    the task unless [finalize()] raises itself. *)
Theorem start_main_task_failure (f : op W unit) (w w0 w1 w2 w3 w4 : W)
    (pre post : list hub) (h : hub) (e : exn) :
  f w = (Returned tt, w0) ->
  started (Hub_hubs w0) w0 w1 ->
  Hub_hubs w1 = pre ++ h :: post ->
  all_return spawn_hub_run (Hub_hubs w1) w1 w2 ->
  all_return await_task pre w2 w3 ->
  await_task h w3 = (Raised e, w4) ->
  start_main (PyAsyncFunction f) w
  = (after_cleanup (Raised e) (result finalize w4), final finalize w4,
     EvSetup :: EvAwait FnInitialize
     :: startup_trace (Hub_hubs w0)
        ++ (map (@EvSpawn hub) (Hub_hubs w1) ++ map (@EvAwaitTask hub) pre ++ [EvAwaitTask h])
        ++ EvAwait FnFinalize :: trace finalize w4).
Proof.
  intros Hf Hs Hreg Hsp Haw He. unfold start_main. rewrite (start_main_eq _ _ _ Hf Hs).
  assert (Hb : bind (read Hub_hubs)
                 (fun hubs =>
                    bind (for_each hubs (fun h => call (EvSpawn h) (spawn_hub_run h)))
                      (fun _ => for_each hubs
                                  (fun h => call (EvAwaitTask h) (await_task h)))) w1
               = (Raised e, w4,
                  map (@EvSpawn hub) (Hub_hubs w1) ++ map (@EvAwaitTask hub) pre ++ [EvAwaitTask h])).
  { rewrite read_bind.
    eapply bind_returned_eq; [by apply all_return_for_each|].
    rewrite Hreg. eapply for_each_abort; [by apply all_return_for_each|].
    by apply call_eq. }
  unfold result, final, trace. rewrite (try_finally_eq _ _ _ Hb).
  unfold result, final, trace. rewrite await_finalize_eq. reflexivity.
Qed.

End Mains.

(* ================================================================== *)
(** * The decorator: decoration time, and where a failure leaves it    *)
(* ================================================================== *)

Section Decoration.
Context {W hub peripheral : Type} `{HC : HubClasses W hub peripheral}.

Lemma attach_init_eq (pt : class_ref) (kw : kwargs) (w : W) :
  attach_init (hub := hub) (peripheral := peripheral) pt kw w
  = (Returned (Attach pt kw), w, if logging_is_debug w then [EvPrint pt] else []).
Proof.
  unfold attach_init. rewrite read_bind.
  unfold bind, emit, ret. by destruct (logging_is_debug w).
Qed.

Lemma eval_decorators_eq (exprs : list (class_ref * kwargs)) (w : W) :
  eval_decorators (hub := hub) (peripheral := peripheral) exprs w
  = (Returned (map (fun x => Attach (fst x) (snd x)) exprs), w,
     if logging_is_debug w then map (fun x => EvPrint (fst x)) exprs else []).
Proof.
  induction exprs as [|[pt kw] exprs IH]; simpl.
  - unfold ret. by destruct (logging_is_debug w).
  - unfold bind. rewrite attach_init_eq, IH. unfold ret.
    destruct (logging_is_debug w); simpl; by rewrite ?app_nil_r.
Qed.

(** A class statement under [attach] decorators instantiates nothing: it
    never raises, leaves the world as it is, creates no peripheral and no
    hub, and yields the class wrapped by decorators that hold the type and
    the keyword arguments exactly as written.  With the root logger at
    DEBUG it prints one line per decorator, in the order of declaration;
    otherwise it prints nothing. *)
Theorem class_statement_instantiates_nothing
    (exprs : list (class_ref * kwargs)) (cls : class_ref) (w : W) :
  class_statement (hub := hub) (peripheral := peripheral) exprs cls w
  = (Returned (decorate (map (fun x => Attach (fst x) (snd x)) exprs) cls), w,
     if logging_is_debug w then map (fun x => EvPrint (fst x)) exprs else []).
Proof.
  unfold class_statement, bind. rewrite eval_decorators_eq. unfold ret.
  by rewrite app_nil_r.
Qed.

Lemma wrapper_f_peripheral_raised (self : attach) (cls : constructor W hub peripheral)
    (args : call_args) (w w1 : W) e :
  peripheral_new (peripheral_type self) (attach_kwargs self) w = (Raised e, w1) ->
  wrapper_f self cls args w
  = (Raised e, w1, [EvPeripheral (peripheral_type self) (attach_kwargs self)]).
Proof. intros Hp. unfold wrapper_f. by rewrite call_bind, Hp. Qed.

Lemma wrapper_f_inner_raised (self : attach) (cls : constructor W hub peripheral)
    (args : call_args) (w w1 w2 : W) p e t :
  peripheral_new (peripheral_type self) (attach_kwargs self) w = (Returned p, w1) ->
  ctor_call cls args w1 = (Raised e, w2, t) ->
  wrapper_f self cls args w
  = (Raised e, w2, EvPeripheral (peripheral_type self) (attach_kwargs self) :: t).
Proof.
  intros Hp Hin. unfold wrapper_f. rewrite call_bind, Hp.
  unfold result, final, trace. by rewrite (bind_raised _ _ _ Hin).
Qed.

Lemma wrapper_f_attach_raised (self : attach) (cls : constructor W hub peripheral)
    (args : call_args) (w w1 w2 w3 w4 : W) p o e t :
  peripheral_new (peripheral_type self) (attach_kwargs self) w = (Returned p, w1) ->
  ctor_call cls args w1 = (Returned o, w2, t) ->
  hub_message_debug o (debug_message (ctor_name cls) self) w2 = (Returned tt, w3) ->
  hub_attach_sensor o p w3 = (Raised e, w4) ->
  wrapper_f self cls args w
  = (Raised e, w4,
     EvPeripheral (peripheral_type self) (attach_kwargs self)
     :: t ++ [EvMessageDebug o (debug_message (ctor_name cls) self);
              EvAttachSensor o p]).
Proof.
  intros Hp Ho Hd Ha. unfold wrapper_f.
  rewrite call_bind, Hp. unfold result, final, trace.
  rewrite (bind_returned _ _ _ Ho). simpl.
  fold (debug_message (ctor_name cls) self).
  unfold result, final, trace. rewrite call_bind, Hd.
  unfold result, final, trace. by rewrite call_bind, Ha.
Qed.

(** An exception below a stack of decorators goes up through it: the
    peripherals of the decorators above are instantiated first, and none of
    them is attached. *)
Lemma raised_through_stack (outer : list attach) (ps : list peripheral)
    (c : constructor W hub peripheral) (args : call_args) (w w1 w2 : W) e t :
  created outer ps w w1 ->
  ctor_call c args w1 = (Raised e, w2, t) ->
  ctor_call (fold_right attach_call c outer) args w
  = (Raised e, w2, peripheral_events outer ++ t).
Proof.
  intros Hc Hin. induction Hc as [w | d ds p ps w wa wb Hp _ IH]; [exact Hin|].
  simpl. eapply wrapper_f_inner_raised; [exact Hp | by apply IH].
Qed.

Lemma decorate_app (outer inner : list attach) (cls : class_ref) :
  decorate (W := W) (hub := hub) (peripheral := peripheral) (outer ++ inner) cls
  = fold_right attach_call (decorate inner cls) outer.
Proof. unfold decorate. by rewrite fold_right_app. Qed.

(** When the constructor of the peripheral of one decorator raises, the
    decorated constructor raises that exception: the peripherals of the
    decorators above it have been instantiated, those below it have not, and
    the hub class is never instantiated. *)
Theorem decorate_stops_at_failing_peripheral
    (pre post : list attach) (d : attach) (ps : list peripheral)
    (cls : class_ref) (args : call_args) (w w1 w2 : W) (e : exn) :
  created pre ps w w1 ->
  peripheral_new (peripheral_type d) (attach_kwargs d) w1 = (Raised e, w2) ->
  ctor_call (decorate (pre ++ d :: post) cls) args w
  = (Raised e, w2,
     peripheral_events pre ++ [EvPeripheral (peripheral_type d) (attach_kwargs d)]).
Proof.
  intros Hc Hp. rewrite decorate_app.
  eapply raised_through_stack; [exact Hc|].
  simpl. by apply wrapper_f_peripheral_raised.
Qed.

(** When the hub class itself raises in its constructor, every peripheral
    has been instantiated by then, none is attached, and the decorated
    constructor raises that exception. *)
Theorem decorate_stops_at_failing_constructor
    (ds : list attach) (ps : list peripheral)
    (cls : class_ref) (args : call_args) (w w1 w2 : W) (e : exn) :
  created ds ps w w1 ->
  hub_new cls args w1 = (Raised e, w2) ->
  ctor_call (decorate ds cls) args w
  = (Raised e, w2, peripheral_events ds ++ [EvConstruct cls args]).
Proof.
  intros Hc Hn. unfold decorate.
  eapply raised_through_stack; [exact Hc|].
  simpl. by apply call_eq.
Qed.

(** When [attach_sensor] raises for the peripheral of one decorator, after
    the decorators below it have attached theirs, the decorated constructor
    raises that exception: the hub exists, with the peripherals of the lower
    decorators attached, but it is not returned, and the peripherals of the
    decorators above are never attached. *)
Theorem decorate_stops_at_failing_attach
    (outer inner : list attach) (d : attach) (ps : list peripheral)
    (cls : class_ref) (args : call_args) (w w1 w2 w3 w4 w5 : W)
    (p : peripheral) (o : hub) (e : exn) (t : list (attach_event hub peripheral)) :
  created outer ps w w1 ->
  peripheral_new (peripheral_type d) (attach_kwargs d) w1 = (Returned p, w2) ->
  ctor_call (decorate inner cls) args w2 = (Returned o, w3, t) ->
  hub_message_debug o (debug_message cls d) w3 = (Returned tt, w4) ->
  hub_attach_sensor o p w4 = (Raised e, w5) ->
  ctor_call (decorate (outer ++ d :: inner) cls) args w
  = (Raised e, w5,
     peripheral_events outer
     ++ EvPeripheral (peripheral_type d) (attach_kwargs d)
        :: t ++ [EvMessageDebug o (debug_message cls d); EvAttachSensor o p]).
Proof.
  intros Hc Hp Ho Hd Ha. rewrite decorate_app.
  eapply raised_through_stack; [exact Hc|].
  simpl.
  pose proof (fun Hd' => wrapper_f_attach_raised d (decorate inner cls) args w1
                            Hp Ho Hd' Ha) as H.
  rewrite ctor_name_decorate in H. by apply H.
Qed.

End Decoration.

(* ================================================================== *)
(** * The example program                                              *)
(* ================================================================== *)

Section Driving.
Context {W hub motor : Type} `{D : Driving W hub motor}.

Lemma silent_bind {A B} (f : op W A) (k : A -> M W (drive_event motor) B) w :
  bind (silent f) k w
  = match f w with
    | (Returned a, w1) => k a w1
    | (Raised e, w1) => (Raised e, w1, [])
    end.
Proof.
  unfold bind, silent. destruct (f w) as [[a|e] w1]; [|reflexivity].
  by destruct (k a w1) as [[r w2] t2].
Qed.

(** [set_speed] returns exactly when the vehicle has a [front_drive] that
    takes the speed and then a [rear_drive] that takes it; these two
    commands are all it sends, in this order. *)
Lemma set_speed_returned (self : hub) (speed : Z) (w w' : W) t :
  set_speed self speed w = (Returned tt, w', t)
  <-> exists f r,
        commanded self speed f r w w'
        /\ t = [EvSetSpeed f speed; EvSetSpeed r speed].
Proof.
  unfold set_speed, commanded. rewrite silent_bind. split.
  - destruct (hub_getattr self "front_drive" w) as [[f|e] w1]; [|discriminate].
    rewrite call_bind.
    destruct (motor_set_speed f speed w1) as [[[]|e] w2] eqn:Hf; [|discriminate].
    unfold result, final, trace. rewrite silent_bind.
    destruct (hub_getattr self "rear_drive" w2) as [[r|e] w3] eqn:Hg; [|discriminate].
    unfold call.
    destruct (motor_set_speed r speed w3) as [[[]|e] w4] eqn:Hr; [|discriminate].
    intros H. inversion H; subst. exists f, r. split; [|done].
    by exists w1, w2, w3.
  - intros (f & r & (w1 & w2 & w3 & Hgf & Hf & Hgr & Hr) & ->).
    rewrite Hgf, call_bind, Hf. unfold result, final, trace.
    rewrite silent_bind, Hgr. unfold call. by rewrite Hr.
Qed.


(** The example program has no cleanup of its own: when the sleep raises
    (a cancellation, say) after the motors were started, the program raises
    with it and no stop command is ever sent. *)
Theorem program_interrupted_never_stops (vehicle : hub) (w w1 w2 : W)
    (t1 : list (drive_event motor)) (e : exn) :
  set_speed vehicle 10 w = (Returned tt, w1, t1) ->
  asyncio_sleep 3 w1 = (Raised e, w2) ->
  program vehicle w = (Raised e, w2, t1 ++ [EvSleep 3])
  /\ List.filter is_stop (t1 ++ [EvSleep 3]) = [].
Proof.
  intros Hs Hz. split.
  - unfold program. eapply bind_returned_eq; [exact Hs|].
    apply bind_raised. by apply call_eq.
  - apply set_speed_returned in Hs as (f & r & _ & ->). reflexivity.
Qed.

End Driving.

(* ================================================================== *)
(** * The failures in the lab                                          *)
(* ================================================================== *)

Module LabRuns.
Import Lab.

Ltac all_started :=
  repeat (eapply started_cons; [reflexivity | reflexivity |]); apply started_nil.
Ltac all_stopped :=
  repeat (eapply stopped_cons; [reflexivity | reflexivity |]); apply stopped_nil.
Ltac all_returned :=
  repeat (eapply all_return_cons; [reflexivity |]); apply all_return_nil.

(** The second of three hubs connects and then fails to initialize: it
    stays connected, like the first, and the third is never touched. *)
Lemma initialize_stops_at_failing_initialize_witness :
  initialize (lab_fresh [good 1; bad 2 Initialize; good 3])
  = (Raised (Exception "HubError"),
     LabWorld [good 1; bad 2 Initialize; good 3] [2; 1],
     startup_trace [good 1]
     ++ [EvHub (bad 2 Initialize) Connect; EvHub (bad 2 Initialize) Initialize]).
Proof.
  eapply initialize_stops_at_failing_initialize
    with (post := [good 3])
         (w1 := LabWorld [good 1; bad 2 Initialize; good 3] [1]).
  - reflexivity.
  - all_started.
  - reflexivity.
  - reflexivity.
Defined.

(** The second of three hubs fails in [finalize()], or in [disconnect()]:
    the third hub keeps its connection in both cases. *)
Lemma finalize_stops_at_failing_hub_witness :
  finalize (lab_connected [good 1; bad 2 Finalize; good 3])
  = (Raised (Exception "HubError"),
     LabWorld [good 1; bad 2 Finalize; good 3] [2; 3],
     teardown_trace [good 1] ++ [EvHub (bad 2 Finalize) Finalize])
  /\ finalize (lab_connected [good 1; bad 2 Disconnect; good 3])
     = (Raised (Exception "HubError"),
        LabWorld [good 1; bad 2 Disconnect; good 3] [2; 3],
        teardown_trace [good 1]
        ++ [EvHub (bad 2 Disconnect) Finalize; EvHub (bad 2 Disconnect) Disconnect]).
Proof.
  assert (Hreg : Hub_hubs (lab_connected [good 1; bad 2 Finalize; good 3])
                 = [good 1] ++ bad 2 Finalize :: [good 3]) by reflexivity.
  assert (Hs : stopped [good 1] (lab_connected [good 1; bad 2 Finalize; good 3])
                 (LabWorld [good 1; bad 2 Finalize; good 3] [2; 3]))
    by all_stopped.
  assert (Hreg' : Hub_hubs (lab_connected [good 1; bad 2 Disconnect; good 3])
                  = [good 1] ++ bad 2 Disconnect :: [good 3]) by reflexivity.
  assert (Hs' : stopped [good 1] (lab_connected [good 1; bad 2 Disconnect; good 3])
                  (LabWorld [good 1; bad 2 Disconnect; good 3] [2; 3]))
    by all_stopped.
  split.
  - eapply (proj1 (finalize_stops_at_failing_hub [good 3] (bad 2 Finalize) Hreg Hs)).
    reflexivity.
  - eapply (proj2 (finalize_stops_at_failing_hub [good 3] (bad 2 Disconnect)
                     Hreg' Hs')); reflexivity.
Defined.

(** Three hubs are finalized and disconnected, then the diagnostics of the
    second raise: [disconnect_all()] is not reached. *)
Lemma finalize_stops_at_failing_diagnostics_witness :
  finalize (lab_connected [good 1; bad 2 MessageInfo; good 3])
  = (Raised (Exception "HubError"),
     lab_fresh [good 1; bad 2 MessageInfo; good 3],
     teardown_trace (Hub_hubs (lab_connected [good 1; bad 2 MessageInfo; good 3]))
     ++ port_info_trace [good 1] [false]
     ++ [EvQueryPortInfo (bad 2 MessageInfo) true;
         EvHub (bad 2 MessageInfo) MessageInfo]).
Proof.
  assert (Hs : stopped (Hub_hubs (lab_connected [good 1; bad 2 MessageInfo; good 3]))
                 (lab_connected [good 1; bad 2 MessageInfo; good 3])
                 (lab_fresh [good 1; bad 2 MessageInfo; good 3])) by all_stopped.
  assert (Hreg : Hub_hubs (lab_fresh [good 1; bad 2 MessageInfo; good 3])
                 = [good 1] ++ bad 2 MessageInfo :: [good 3]) by reflexivity.
  assert (Hr : reported [good 1] [false]
                 (lab_fresh [good 1; bad 2 MessageInfo; good 3])
                 (lab_fresh [good 1; bad 2 MessageInfo; good 3])).
  { apply reported_skip; [reflexivity | apply reported_nil]. }
  exact (finalize_stops_at_failing_diagnostics [good 3] (bad 2 MessageInfo)
           Hs Hreg Hr eq_refl eq_refl).
Defined.

(** No hub registered. *)
Lemma empty_registry_witness :
  initialize (lab_fresh []) = (Returned tt, lab_fresh [], [])
  /\ finalize (lab_fresh [])
     = (fst (disconnect_all (lab_fresh [])), snd (disconnect_all (lab_fresh [])),
        [EvDisconnectAll]).
Proof. exact (empty_registry (lab_fresh []) eq_refl). Defined.

(** One hub, and a program that raises: [finalize()] is awaited once. *)
Lemma run_main_finalizes_once_witness :
  length (List.filter is_await_finalize
            (trace (run_main broken_program) (lab_fresh [good 1]))) = 1.
Proof.
  assert (Hs : started (Hub_hubs (lab_fresh [good 1])) (lab_fresh [good 1])
                 (lab_connected [good 1])) by all_started.
  exact (run_main_finalizes_once broken_program Hs).
Defined.

(** The only hub cannot connect: the program is not run and nothing is
    finalized. *)
Lemma run_main_startup_failure_witness :
  run_main ok_program (lab_fresh [bad 1 Connect])
  = (Raised (Exception "HubError"),
     final initialize (lab_fresh [bad 1 Connect]),
     EvAwait FnInitialize :: trace initialize (lab_fresh [bad 1 Connect])).
Proof.
  exact (run_main_startup_failure ok_program (lab_fresh [bad 1 Connect]) eq_refl).
Defined.

(** One hub, and a program that raises [ValueError]: the hub is torn down
    and [ValueError] is the outcome. *)
Lemma run_main_outcome_witness :
  run_main (PyAsyncFunction (fun w => (Raised (Exception "ValueError"), w)))
           (lab_fresh [good 1])
  = (after_cleanup (Raised (Exception "ValueError"))
                   (result finalize (lab_connected [good 1])),
     final finalize (lab_connected [good 1]),
     EvAwait FnInitialize
     :: startup_trace (Hub_hubs (lab_fresh [good 1]))
        ++ EvProgram :: EvAwait FnFinalize
           :: trace finalize (lab_connected [good 1])).
Proof.
  assert (Hs : started (Hub_hubs (lab_fresh [good 1])) (lab_fresh [good 1])
                 (lab_connected [good 1])) by all_started.
  exact (run_main_outcome
           (fun w => (Raised (Exception "ValueError"), w)) Hs eq_refl).
Defined.

(** [run()] called without a program: the default [None] is not callable.
    And [run(print)]-like: a plain callable that notes it was called and
    returns nothing that can be awaited. *)
Lemma run_main_type_error_witness :
  (exists msg,
      run_main PyNone (lab_fresh [good 1])
      = (after_cleanup (Raised (TypeError msg))
                       (result finalize (lab_connected [good 1])),
         final finalize (lab_connected [good 1]),
         EvAwait FnInitialize
         :: startup_trace (Hub_hubs (lab_fresh [good 1]))
            ++ EvAwait FnFinalize :: trace finalize (lab_connected [good 1])))
  /\ (exists msg,
        run_main (PyFunction (fun w => (Returned None, LabWorld (lab_registry w) [7])))
                 (lab_fresh [good 1])
        = (after_cleanup (Raised (TypeError msg))
                         (result finalize (LabWorld [good 1] [7])),
           final finalize (LabWorld [good 1] [7]),
           EvAwait FnInitialize
           :: startup_trace (Hub_hubs (lab_fresh [good 1]))
              ++ EvAwait FnFinalize :: trace finalize (LabWorld [good 1] [7]))).
Proof.
  assert (Hs : started (Hub_hubs (lab_fresh [good 1])) (lab_fresh [good 1])
                 (lab_connected [good 1])) by all_started.
  split.
  - exact (proj1 (run_main_type_error PyNone Hs) eq_refl).
  - exact (proj2 (run_main_type_error
                    (PyFunction (fun w => (Returned None, LabWorld (lab_registry w) [7])))
                    Hs) _ _ eq_refl eq_refl).
Defined.

(** A setup that raises, a setup that is a coroutine object, and two plain
    callables: one whose value cannot be awaited, one that raises. *)
Lemma start_main_setup_failure_witness :
  start_main broken_program (lab_fresh [good 1])
  = (Raised (Exception "ValueError"), lab_fresh [good 1], [EvSetup])
  /\ (exists msg,
        start_main (PyCoroutine (fun w => (Returned tt, w))) (lab_fresh [good 1])
        = (Raised (TypeError msg), lab_fresh [good 1], []))
  /\ (exists msg,
        start_main (PyFunction (fun w => (Returned None, w))) (lab_fresh [good 1])
        = (Raised (TypeError msg), lab_fresh [good 1], []))
  /\ start_main (PyFunction (fun w => (Raised (Exception "KeyError"), w)))
                (lab_fresh [good 1])
     = (Raised (Exception "KeyError"), lab_fresh [good 1], []).
Proof.
  split; [|split; [|split]].
  - exact (proj1 (start_main_setup_failure (lab_fresh [good 1])) _ _ _ eq_refl).
  - exact (proj1 (proj2 (start_main_setup_failure (lab_fresh [good 1])))
             (PyCoroutine (fun w => (Returned tt, w))) eq_refl).
  - exact (proj1 (proj2 (proj2 (start_main_setup_failure (lab_fresh [good 1]))))
             (fun w => (Returned None, w)) _ eq_refl).
  - exact (proj2 (proj2 (proj2 (start_main_setup_failure (lab_fresh [good 1]))))
             (fun w => (Raised (Exception "KeyError"), w)) _ _ eq_refl).
Defined.

(** Two hubs: both tasks are spawned before the first is awaited. *)
Lemma start_main_order_witness :
  start_main (PyAsyncFunction (fun w => (Returned tt, w))) (lab_fresh [good 1; good 2])
  = (after_cleanup (Returned tt)
                   (result finalize (LabWorld [good 1; good 2] [2; 1])),
     final finalize (LabWorld [good 1; good 2] [2; 1]),
     EvSetup :: EvAwait FnInitialize
     :: startup_trace (Hub_hubs (lab_fresh [good 1; good 2]))
        ++ (map (@EvSpawn lab_hub) (Hub_hubs (LabWorld [good 1; good 2] [2; 1]))
            ++ map (@EvAwaitTask lab_hub)
                   (Hub_hubs (LabWorld [good 1; good 2] [2; 1])))
        ++ EvAwait FnFinalize :: trace finalize (LabWorld [good 1; good 2] [2; 1])).
Proof.
  assert (Hs : started (Hub_hubs (lab_fresh [good 1; good 2]))
                 (lab_fresh [good 1; good 2]) (LabWorld [good 1; good 2] [2; 1]))
    by all_started.
  assert (Hsp : all_return spawn_hub_run
                  (Hub_hubs (LabWorld [good 1; good 2] [2; 1]))
                  (LabWorld [good 1; good 2] [2; 1])
                  (LabWorld [good 1; good 2] [2; 1])) by all_returned.
  assert (Haw : all_return await_task
                  (Hub_hubs (LabWorld [good 1; good 2] [2; 1]))
                  (LabWorld [good 1; good 2] [2; 1])
                  (LabWorld [good 1; good 2] [2; 1])) by all_returned.
  exact (start_main_order (fun w => (Returned tt, w)) (lab_fresh [good 1; good 2])
           eq_refl Hs Hsp Haw).
Defined.

(** Three hubs, the task of the second raises: the third task is spawned
    and never awaited, and the hubs are torn down. *)
Lemma start_main_task_failure_witness :
  start_main (PyAsyncFunction (fun w => (Returned tt, w)))
             (lab_fresh [good 1; crashing 2; good 3])
  = (after_cleanup (Raised (Exception "TaskError"))
       (result finalize (LabWorld [good 1; crashing 2; good 3] [3; 2; 1])),
     final finalize (LabWorld [good 1; crashing 2; good 3] [3; 2; 1]),
     EvSetup :: EvAwait FnInitialize
     :: startup_trace (Hub_hubs (lab_fresh [good 1; crashing 2; good 3]))
        ++ (map (@EvSpawn lab_hub)
                (Hub_hubs (LabWorld [good 1; crashing 2; good 3] [3; 2; 1]))
            ++ map (@EvAwaitTask lab_hub) [good 1] ++ [EvAwaitTask (crashing 2)])
        ++ EvAwait FnFinalize
           :: trace finalize (LabWorld [good 1; crashing 2; good 3] [3; 2; 1])).
Proof.
  assert (Hs : started (Hub_hubs (lab_fresh [good 1; crashing 2; good 3]))
                 (lab_fresh [good 1; crashing 2; good 3])
                 (LabWorld [good 1; crashing 2; good 3] [3; 2; 1])) by all_started.
  assert (Hreg : Hub_hubs (LabWorld [good 1; crashing 2; good 3] [3; 2; 1])
                 = [good 1] ++ crashing 2 :: [good 3]) by reflexivity.
  assert (Hsp : all_return spawn_hub_run
                  (Hub_hubs (LabWorld [good 1; crashing 2; good 3] [3; 2; 1]))
                  (LabWorld [good 1; crashing 2; good 3] [3; 2; 1])
                  (LabWorld [good 1; crashing 2; good 3] [3; 2; 1])) by all_returned.
  assert (Haw : all_return await_task [good 1]
                  (LabWorld [good 1; crashing 2; good 3] [3; 2; 1])
                  (LabWorld [good 1; crashing 2; good 3] [3; 2; 1])) by all_returned.
  exact (start_main_task_failure (fun w => (Returned tt, w))
           (lab_fresh [good 1; crashing 2; good 3]) [good 3] (crashing 2)
           eq_refl Hs Hreg Hsp Haw eq_refl).
Defined.


(** Three decorators, the second without a name: the first peripheral is
    created, the second fails, and the hub class is never instantiated. *)
Lemma decorate_stops_at_failing_peripheral_witness :
  ctor_call (decorate (W := shop) (hub := nat) (peripheral := string)
               ([motor "top"] ++ nameless :: [motor "low"]) "Car") no_args []
  = (Raised (Exception "ConfigurationError"), [],
     peripheral_events [motor "top"]
     ++ [EvPeripheral (peripheral_type nameless) (attach_kwargs nameless)]).
Proof.
  assert (Hc : created (W := shop) (hub := nat) [motor "top"] ["top"%string] [] []).
  { eapply created_cons; [reflexivity | apply created_nil]. }
  exact (decorate_stops_at_failing_peripheral [motor "low"] nameless "Car" no_args
           Hc eq_refl).
Defined.

(** Two decorators on a class whose constructor raises: both peripherals
    are created and none is attached. *)
Lemma decorate_stops_at_failing_constructor_witness :
  ctor_call (decorate (W := shop) (hub := nat) (peripheral := string)
               [motor "top"; motor "low"] "Broken") no_args []
  = (Raised (Exception "RuntimeError"), [],
     peripheral_events [motor "top"; motor "low"]
     ++ [EvConstruct "Broken" no_args]).
Proof.
  assert (Hc : created (W := shop) (hub := nat) [motor "top"; motor "low"]
                 ["top"%string; "low"%string] [] []).
  { eapply created_cons; [reflexivity|].
    eapply created_cons; [reflexivity | apply created_nil]. }
  exact (decorate_stops_at_failing_constructor "Broken" no_args Hc eq_refl).
Defined.

(** Three decorators, the lower two with the same name: the hub is built,
    the lowest peripheral is attached, the hub refuses the second, and the
    peripheral of the top decorator is never attached. *)
Lemma decorate_stops_at_failing_attach_witness :
  ctor_call (decorate (W := shop) (hub := nat) (peripheral := string)
               ([motor "top"] ++ motor "drive" :: [motor "drive"]) "Car") no_args []
  = (Raised (Exception "AssertionError"), [("Car"%string, ["drive"%string])],
     peripheral_events [motor "top"]
     ++ EvPeripheral (peripheral_type (motor "drive")) (attach_kwargs (motor "drive"))
        :: trace (ctor_call (decorate (W := shop) (hub := nat) (peripheral := string)
                               [motor "drive"] "Car") no_args) []
           ++ [EvMessageDebug 0 (debug_message "Car" (motor "drive"));
               EvAttachSensor 0 "drive"%string]).
Proof.
  assert (Hc : created (W := shop) (hub := nat) [motor "top"] ["top"%string] [] []).
  { eapply created_cons; [reflexivity | apply created_nil]. }
  assert (Ho : ctor_call (decorate (W := shop) (hub := nat) (peripheral := string)
                            [motor "drive"] "Car") no_args []
               = (Returned 0, [("Car"%string, ["drive"%string])],
                  trace (ctor_call (decorate (W := shop) (hub := nat)
                                      (peripheral := string) [motor "drive"] "Car")
                                   no_args) [])) by reflexivity.
  exact (decorate_stops_at_failing_attach [motor "drive"] (motor "drive") "Car"
           no_args Hc (p := "drive"%string) eq_refl Ho eq_refl eq_refl).
Defined.


(** The example program, cancelled during its sleep: both motors were told
    speed 10 and nothing else. *)
Lemma program_interrupted_never_stops_witness :
  program tt interrupted
  = (Raised (Exception "CancelledError"),
     Garage ["front_drive"; "rear_drive"] [] false
            [("front_drive"%string, 10%Z); ("rear_drive"%string, 10%Z)],
     trace (set_speed tt 10) interrupted ++ [EvSleep 3])
  /\ List.filter is_stop (trace (set_speed tt 10) interrupted ++ [EvSleep 3]) = [].
Proof.
  assert (Hs : set_speed tt 10 interrupted
               = (Returned tt,
                  Garage ["front_drive"; "rear_drive"] [] false
                         [("front_drive"%string, 10%Z); ("rear_drive"%string, 10%Z)],
                  trace (set_speed tt 10) interrupted)) by reflexivity.
  exact (program_interrupted_never_stops tt interrupted Hs eq_refl).
Defined.

End LabRuns.
